(** * agentic-llm-platform: the tool pipeline, embedded and verified

    A shallow embedding of the Python sources under [app/]:
    - [app/tools/base.py]         ([Base]: validate_params, format_result, format_error)
    - [app/tools/pdf_parser.py]   ([PdfParser]: _parse_page_range)
    - [app/tools/code_execute.py] ([CodeExecute]: execute, _check_code_security, _execute_code)
    - [app/agent/orchestrator.py] ([Orchestrator]: _select_tools, _execute_tools,
                                   _extract_pdf_urls_from_search, _create_response, process_query)

    Python values are the untyped [val]; a call that can raise returns [res];
    code that talks to the outside (tools, the chat service, the clock, the
    interpreter behind [exec]) threads an explicit state. *)

From Stdlib Require Import ZArith QArith Ascii String.
From stdpp Require Import base strings list gmap sorting.

Set Default Proof Using "Type".
Set Warnings "-register-all".
Local Open Scope string_scope.
Local Open Scope Z_scope.
Local Open Scope list_scope.

(* ===================================================================== *)
(** ** Python values, exceptions and the built-ins the sources use *)
(* ===================================================================== *)

Module Py.

(** The values that travel through the pipeline: what [json.loads] produces
    and what tools return.  A float is the rational it denotes; text is a
    sequence of code points below 256. *)
Inductive val : Type :=
| VNone
| VBool (b : bool)
| VInt (n : Z)
| VFloat (q : Q)
| VStr (s : string)
| VList (l : list val)
| VDict (d : list (string * val)).

(** A raised exception: its class name and what [str(e)] gives. *)
Record exn : Type := Exn { exn_type : string; exn_str : string }.

(** The outcome of a call: a value, or a raised exception. *)
Inductive res (A : Type) : Type :=
| Ret (a : A)
| Raise (e : exn).
Arguments Ret {A} a.
Arguments Raise {A} e.

(** Sequencing: the first raise ends the block.  With the instances below,
    [x ← m; k] runs [m] and, if it returns, [k]. *)
Definition bind {A B} (f : A → res B) (m : res A) : res B :=
  match m with
  | Ret a => f a
  | Raise e => Raise e
  end.

#[global] Instance res_ret : MRet res := @Ret.
#[global] Instance res_bind : MBind res := @bind.

(** A [for] loop whose body can raise and which builds up a value. *)
Fixpoint foldM {A B} (f : B → A → res B) (acc : B) (xs : list A) : res B :=
  match xs with
  | [] => Ret acc
  | x :: xs' => acc' ← f acc x; foldM f acc' xs'
  end.

Definition TypeError (msg : string) : exn := Exn "TypeError" msg.
Definition ValueError (msg : string) : exn := Exn "ValueError" msg.
Definition AttributeError (msg : string) : exn := Exn "AttributeError" msg.
Definition KeyError (msg : string) : exn := Exn "KeyError" msg.

(** [type(v).__name__] *)
Definition type_name (v : val) : string :=
  match v with
  | VNone => "NoneType"
  | VBool _ => "bool"
  | VInt _ => "int"
  | VFloat _ => "float"
  | VStr _ => "str"
  | VList _ => "list"
  | VDict _ => "dict"
  end.

(** [bool(v)] *)
Definition truthy (v : val) : bool :=
  match v with
  | VNone => false
  | VBool b => b
  | VInt n => negb (n =? 0)
  | VFloat q => negb (Qeq_bool q 0)
  | VStr s => negb (String.eqb s "")
  | VList l => match l with [] => false | _ => true end
  | VDict d => match d with [] => false | _ => true end
  end.

(** *** Dictionaries: association lists in insertion order, keys unique *)

Fixpoint dict_get {V} (k : string) (d : list (string * V)) : option V :=
  match d with
  | [] => None
  | (k', v) :: d' => if String.eqb k k' then Some v else dict_get k d'
  end.

Definition dict_mem {V} (k : string) (d : list (string * V)) : bool :=
  match dict_get k d with Some _ => true | None => false end.

(** [d[k] = v]: overwrite in place, or append a new key. *)
Fixpoint dict_set {V} (k : string) (v : V) (d : list (string * V)) : list (string * V) :=
  match d with
  | [] => [(k, v)]
  | (k', v') :: d' =>
      if String.eqb k k' then (k, v) :: d' else (k', v') :: dict_set k v d'
  end.

(** *** Numbers and equality *)

(** [bool] is a subclass of [int]: [True == 1]. *)
Definition num_of (v : val) : option Q :=
  match v with
  | VBool b => Some (if b then 1%Q else 0%Q)
  | VInt n => Some (inject_Z n)
  | VFloat q => Some q
  | _ => None
  end.

(** [a == b] *)
Fixpoint py_eqb (a b : val) {struct a} : bool :=
  match a, b with
  | VNone, VNone => true
  | VStr s, VStr t => String.eqb s t
  | VList l, VList m =>
      (fix go (l m : list val) {struct l} : bool :=
         match l, m with
         | [], [] => true
         | x :: l', y :: m' => py_eqb x y && go l' m'
         | _, _ => false
         end) l m
  | VDict d, VDict e =>
      Nat.eqb (length d) (length e) &&
      (fix go (d : list (string * val)) {struct d} : bool :=
         match d with
         | [] => true
         | (k, x) :: d' =>
             match dict_get k e with
             | Some y => py_eqb x y
             | None => false
             end && go d'
         end) d
  | _, _ =>
      match num_of a, num_of b with
      | Some p, Some q => Qeq_bool p q
      | _, _ => false
      end
  end.

Definition unorderable (op : string) (v : val) (bound : string) : exn :=
  TypeError ("'" +:+ op +:+ "' not supported between instances of '"
             +:+ type_name v +:+ "' and '" +:+ bound +:+ "'").

(** [v < n] and [v > n] against an integer bound: only numbers are ordered
    with an [int]. *)
Definition py_lt_int (v : val) (n : Z) : res bool :=
  match num_of v with
  | Some q => Ret (negb (Qle_bool (inject_Z n) q))
  | None => Raise (unorderable "<" v "int")
  end.

Definition py_gt_int (v : val) (n : Z) : res bool :=
  match num_of v with
  | Some q => Ret (negb (Qle_bool q (inject_Z n)))
  | None => Raise (unorderable ">" v "int")
  end.

(** *** Text *)

Definition newline : string := String (ascii_of_nat 10) "".

(** [sep.join(parts)] *)
Fixpoint join (sep : string) (parts : list string) : string :=
  match parts with
  | [] => ""
  | [p] => p
  | p :: ps => p +:+ sep +:+ join sep ps
  end.

Fixpoint starts_with (p s : string) : bool :=
  match p, s with
  | EmptyString, _ => true
  | String a p', String b s' => Ascii.eqb a b && starts_with p' s'
  | String _ _, EmptyString => false
  end.

(** [needle in hay] on text *)
Fixpoint contains (needle hay : string) : bool :=
  starts_with needle hay ||
  match hay with
  | EmptyString => false
  | String _ hay' => contains needle hay'
  end.

(** [s.endswith(suffix)] *)
Fixpoint ends_with (suffix s : string) : bool :=
  String.eqb suffix s ||
  match s with
  | EmptyString => false
  | String _ s' => ends_with suffix s'
  end.

(** [c.lower()] on one code point below 256: A-Z, and the Latin-1 capitals
    0xC0-0xDE but for the multiplication sign 0xD7. *)
Definition lower_ascii (c : ascii) : ascii :=
  let n := nat_of_ascii c in
  if ((65 <=? n) && (n <=? 90))%nat then ascii_of_nat (n + 32)
  else if ((192 <=? n) && (n <=? 222) && negb (n =? 215))%nat then ascii_of_nat (n + 32)
  else c.

Fixpoint lower (s : string) : string :=
  match s with
  | EmptyString => EmptyString
  | String c s' => String (lower_ascii c) (lower s')
  end.

(** [c.isspace()]: tab to carriage return, the four separators 0x1C-0x1F,
    space, and (as code points) NEL 0x85 and the no-break space 0xA0. *)
Definition is_space (c : ascii) : bool :=
  let n := nat_of_ascii c in
  ((9 <=? n) && (n <=? 13) || (28 <=? n) && (n <=? 32) || (n =? 133) || (n =? 160))%nat.

Fixpoint lstrip_by (p : ascii → bool) (s : string) : string :=
  match s with
  | EmptyString => EmptyString
  | String c s' => if p c then lstrip_by p s' else s
  end.

Fixpoint rstrip_by (p : ascii → bool) (s : string) : string :=
  match s with
  | EmptyString => EmptyString
  | String c s' =>
      match rstrip_by p s' with
      | EmptyString => if p c then EmptyString else String c EmptyString
      | r => String c r
      end
  end.

(** [s.strip()] *)
Definition strip (s : string) : string := rstrip_by is_space (lstrip_by is_space s).

(** [s.strip(chars)] *)
Definition strip_chars (chars : string) (s : string) : string :=
  let p c := contains (String c "") chars in
  rstrip_by p (lstrip_by p s).

(** [s.split(c)] for a one-character separator: always at least one part. *)
Fixpoint split (sep : ascii) (s : string) : list string :=
  match s with
  | EmptyString => [EmptyString]
  | String c s' =>
      if Ascii.eqb c sep then EmptyString :: split sep s'
      else match split sep s' with
           | [] => [String c EmptyString]
           | p :: ps => String c p :: ps
           end
  end.

(** *** Operations on values of unknown type *)

Definition no_attribute (v : val) (attr : string) : exn :=
  AttributeError ("'" +:+ type_name v +:+ "' object has no attribute '" +:+ attr +:+ "'").

(** [v.get(k, default)]: only a dict has [get]. *)
Definition py_get (v : val) (k : string) (default : val) : res val :=
  match v with
  | VDict d => Ret (match dict_get k d with Some x => x | None => default end)
  | _ => Raise (no_attribute v "get")
  end.

(** [k in v] for a text key [k]. *)
Definition py_contains (k : string) (v : val) : res bool :=
  match v with
  | VDict d => Ret (dict_mem k d)
  | VList l => Ret (existsb (py_eqb (VStr k)) l)
  | VStr s => Ret (contains k s)
  | _ => Raise (TypeError ("argument of type '" +:+ type_name v +:+ "' is not iterable"))
  end.

(** [v[k] = x] for a text key [k]. *)
Definition py_setitem (v : val) (k : string) (x : val) : res val :=
  match v with
  | VDict d => Ret (VDict (dict_set k x d))
  | VList _ => Raise (TypeError "list indices must be integers or slices, not str")
  | _ => Raise (TypeError ("'" +:+ type_name v +:+ "' object does not support item assignment"))
  end.

Definition chars_of (s : string) : list val :=
  (λ c, VStr (String c "")) <$> list_ascii_of_string s.

(** [for x in v]: the items a loop over [v] visits. *)
Definition py_iter (v : val) : res (list val) :=
  match v with
  | VList l => Ret l
  | VDict d => Ret ((λ kv, VStr kv.1) <$> d)
  | VStr s => Ret (chars_of s)
  | _ => Raise (TypeError ("'" +:+ type_name v +:+ "' object is not iterable"))
  end.

(** [v.lower()]: only text has [lower]. *)
Definition py_lower (v : val) : res string :=
  match v with
  | VStr s => Ret (lower s)
  | _ => Raise (no_attribute v "lower")
  end.

(** The built-ins the model leaves to the interpreter. *)
Class Runtime : Type := {
  (** [repr(v)] *)
  repr : val → string;
  (** [json.dumps(v, indent=2)] and [json.dumps(v)] on the values above *)
  json_dumps : val → string;
  (** [json.loads(text)] *)
  json_loads : string → res val;
  (** [traceback.format_exc()] *)
  format_exc : string;
}.

(** [str(v)] *)
Definition str `{Runtime} (v : val) : string :=
  match v with
  | VStr s => s
  | _ => repr v
  end.

End Py.

(* ===================================================================== *)
(** ** app/config.py *)
(* ===================================================================== *)

Module Settings.

Definition PDF_MAX_PAGES : nat := 50.

End Settings.

(* ===================================================================== *)
(** ** app/tools/base.py: BaseTool *)
(* ===================================================================== *)

Module Base.
Import Py.

(** One entry of [self.parameters]: a dict literal in every tool, read with
    [get], [in] and [[]].  A key that is absent is [None] here. *)
Record param_spec : Type := ParamSpec {
  ps_type : option string;
  ps_description : string;
  ps_required : bool;
  ps_enum : option (list val);
  ps_minimum : option Z;
  ps_maximum : option Z;
  ps_default : option val;
}.

(** What [__init__] stores. *)
Record BaseTool : Type := Tool {
  name : string;
  description : string;
  parameters : list (string * param_spec);
}.

(** [isinstance(v, ...)] for the classes validate_params asks about;
    [bool] is a subclass of [int]. *)
Definition is_str (v : val) : bool := match v with VStr _ => true | _ => false end.
Definition is_int (v : val) : bool := match v with VInt _ | VBool _ => true | _ => false end.
Definition is_number (v : val) : bool := match v with VInt _ | VBool _ | VFloat _ => true | _ => false end.
Definition is_bool (v : val) : bool := match v with VBool _ => true | _ => false end.
Definition is_list (v : val) : bool := match v with VList _ => true | _ => false end.
Definition is_dict (v : val) : bool := match v with VDict _ => true | _ => false end.

Definition type_is (param_type : option string) (tag : string) : bool :=
  match param_type with
  | Some t => String.eqb t tag
  | None => false
  end.

(** The if/elif chain under "type check". *)
Definition type_errors (param_name : string) (param_type : option string) (param_value : val)
  : list string :=
  if type_is param_type "string" && negb (is_str param_value) then
    ["Parameter " +:+ param_name +:+ " should be a string"]
  else if type_is param_type "number" && negb (is_number param_value) then
    ["Parameter " +:+ param_name +:+ " should be a number"]
  else if type_is param_type "integer" && negb (is_int param_value) then
    ["Parameter " +:+ param_name +:+ " should be an integer"]
  else if type_is param_type "boolean" && negb (is_bool param_value) then
    ["Parameter " +:+ param_name +:+ " should be a boolean"]
  else if type_is param_type "array" && negb (is_list param_value) then
    ["Parameter " +:+ param_name +:+ " should be an array"]
  else if type_is param_type "object" && negb (is_dict param_value) then
    ["Parameter " +:+ param_name +:+ " should be an object"]
  else [].

Section WithRuntime.
Context `{Runtime}.

(** "Check enums" *)
Definition enum_errors (param_name : string) (spec : param_spec) (param_value : val)
  : list string :=
  match ps_enum spec with
  | Some enum =>
      if negb (existsb (py_eqb param_value) enum) then
        let valid_values := join ", " (str <$> enum) in
        ["Parameter " +:+ param_name +:+ " must be one of: " +:+ valid_values]
      else []
  | None => []
  end.

(** The two bound checks; the comparison raises on a value that is not a
    number. *)
Definition minimum_errors (param_name : string) (spec : param_spec) (param_value : val)
  : res (list string) :=
  match ps_minimum spec with
  | Some minimum =>
      below ← py_lt_int param_value minimum;
      Ret (if below : bool then
             ["Parameter " +:+ param_name +:+ " must be at least " +:+ str (VInt minimum)]
           else [])
  | None => Ret []
  end.

Definition maximum_errors (param_name : string) (spec : param_spec) (param_value : val)
  : res (list string) :=
  match ps_maximum spec with
  | Some maximum =>
      above ← py_gt_int param_value maximum;
      Ret (if above : bool then
             ["Parameter " +:+ param_name +:+ " must be at most " +:+ str (VInt maximum)]
           else [])
  | None => Ret []
  end.

(** The first loop of validate_params, "Check required params". *)
Definition missing_errors (parameters : list (string * param_spec))
    (params : list (string * val)) : list string :=
  flat_map (λ '(param_name, spec),
              if ps_required spec && negb (dict_mem param_name params)
              then ["Missing required parameter: " +:+ param_name]
              else [])
           parameters.

(** The body of the second loop, "Check param types", for one supplied
    parameter: the errors it appends. *)
Definition check_param (parameters : list (string * param_spec))
    (param_name : string) (param_value : val) : res (list string) :=
  match dict_get param_name parameters with
  | None => Ret ["Unknown parameter: " +:+ param_name]
  | Some spec =>
      let e_type := type_errors param_name (ps_type spec) param_value in
      let e_enum := enum_errors param_name spec param_value in
      e_min ← minimum_errors param_name spec param_value;
      e_max ← maximum_errors param_name spec param_value;
      Ret (e_type ++ e_enum ++ e_min ++ e_max)
  end.

Definition validate_params (parameters : list (string * param_spec))
    (params : list (string * val)) : res (list string) :=
  let errors := missing_errors parameters params in
  foldM (λ errors '(param_name, param_value),
           es ← check_param parameters param_name param_value;
           Ret (errors ++ es))
        errors params.

(** "Format the result for the agent" *)
Definition format_result (self : BaseTool) (result : val) : val :=
  VDict [("tool", VStr (name self));
         ("success", VBool true);
         ("result", if is_dict result || is_str result then result else VStr (str result))].

(** What a tool hands to format_error: an exception it caught, or any
    other value (the tools pass text). *)
Inductive error_arg : Type :=
| ErrExn (e : exn)
| ErrVal (v : val).

Definition error_msg (error : error_arg) : string :=
  match error with
  | ErrExn e => exn_type e +:+ ": " +:+ exn_str e
  | ErrVal v => str v
  end.

Definition format_error (self : BaseTool) (error : error_arg) : val :=
  VDict [("tool", VStr (name self));
         ("success", VBool false);
         ("result", VStr (error_msg error))].

End WithRuntime.

End Base.

(* ===================================================================== *)
(** ** app/tools/web_search.py: WebSearchTool (its declared parameters) *)
(* ===================================================================== *)

Module WebSearch.
Import Py.

Definition spec : Base.BaseTool :=
  Base.Tool "web_search" "Searches the web for information"
    [("query", Base.ParamSpec (Some "string") "Search query" true None None None None);
     ("num_results", Base.ParamSpec (Some "integer") "Number of results to return" false
                       None (Some 1) (Some 10) (Some (VInt 5)))].

End WebSearch.

(* ===================================================================== *)
(** ** app/tools/pdf_parser.py: PDFParserTool *)
(* ===================================================================== *)

Module PdfParser.
Import Py.

Definition spec : Base.BaseTool :=
  Base.Tool "pdf_parser" "Extracts text and data from PDF documents"
    [("url", Base.ParamSpec (Some "string") "URL to PDF file" false None None None None);
     ("file_path", Base.ParamSpec (Some "string") "Local path to PDF" false None None None None);
     ("pages", Base.ParamSpec (Some "string") "Pages to extract (e.g. '1-5' or '1,3,5')"
                 false None None None None)].

Definition digit_of (c : ascii) : option Z :=
  let n := nat_of_ascii c in
  if ((48 <=? n) && (n <=? 57))%nat then Some (Z.of_nat n - 48) else None.

(** Decimal digits, single underscores allowed between two digits. *)
Fixpoint parse_digits (acc : Z) (after_digit : bool) (s : string) : option Z :=
  match s with
  | EmptyString => if after_digit then Some acc else None
  | String c s' =>
      match digit_of c with
      | Some d => parse_digits (10 * acc + d) true s'
      | None =>
          if Ascii.eqb c "_" && after_digit then parse_digits acc false s' else None
      end
  end.

(** [int(s)] on text: surrounding white space, an optional sign, digits.
    (The interpreter's cap on the number of digits is left out.) *)
Definition py_int `{Runtime} (s : string) : res Z :=
  let t := strip s in
  let parsed :=
    match t with
    | String "+" r => parse_digits 0 false r
    | String "-" r => Z.opp <$> parse_digits 0 false r
    | _ => parse_digits 0 false t
    end in
  match parsed with
  | Some n => Ret n
  | None => Raise (ValueError ("invalid literal for int() with base 10: " +:+ repr (VStr s)))
  end.

(** [list(range(start, stop))] *)
Definition range (start stop : Z) : list Z := seqZ start (stop - start).

(** [sorted(set(xs))] *)
Definition sorted_set (xs : list Z) : list Z := merge_sort Z.le (remove_dups xs).

Definition is_ValueError (e : exn) : bool := String.eqb (exn_type e) "ValueError".

(** The body of the loop over the comma-separated parts. *)
Definition parse_part `{Runtime} (page_numbers : list Z) (part : string) : res (list Z) :=
  let part := strip part in
  if contains "-" part then
    match split "-" part with
    | [start; end_] =>
        match (start_num ← py_int (strip start);
               end_num ← py_int (strip end_);
               Ret (start_num, end_num)) with
        | Ret (start_num, end_num) =>
            let '(start_num, end_num) :=
              if end_num <? start_num then (end_num, start_num) else (start_num, end_num) in
            Ret (page_numbers ++ range start_num (end_num + 1))
        | Raise e => if is_ValueError e then Ret page_numbers else Raise e
        end
    | [] | [_] => Raise (ValueError "not enough values to unpack (expected 2, got 1)")
    | _ => Raise (ValueError "too many values to unpack (expected 2)")
    end
  else
    match py_int part with
    | Ret n => Ret (page_numbers ++ [n])
    | Raise e => if is_ValueError e then Ret page_numbers else Raise e
    end.

(** [pages_str] is [params.get("pages")]: [None] when the key is absent. *)
Definition _parse_page_range `{Runtime} (max_pages : nat) (pages_str : option string)
  : res (list Z) :=
  match pages_str with
  | None | Some EmptyString => Ret []
  | Some pages_str =>
      page_numbers ← foldM parse_part [] (split "," pages_str);
      let page_numbers := sorted_set page_numbers in
      Ret (if (max_pages <? length page_numbers)%nat
           then take max_pages page_numbers
           else page_numbers)
  end.

End PdfParser.

(* ===================================================================== *)
(** ** app/tools/code_execute.py: CodeExecuteTool *)
(* ===================================================================== *)

Module CodeExecute.
Import Py.

Definition spec : Base.BaseTool :=
  Base.Tool "code_execute" "Executes python code and returns the results"
    [("code", Base.ParamSpec (Some "string") "Python code to execute" true None None None None);
     ("timeout", Base.ParamSpec (Some "integer") "Maximum execution time in seconds" false
                   None (Some 1) (Some 60) (Some (VInt 10)))].

(** The two sets of [__init__].  A loop over a set visits its members in an
    order the language leaves open: [elements] stands for it. *)
Definition allowed_modules : gset string :=
  list_to_set ["pandas"; "numpy"; "matplotlib"; "seaborn"; "sklearn"; "datetime"; "json";
               "math"; "random"; "re"; "collections"; "itertools"; "functools"; "statistics"].

Definition blocked_modules : gset string :=
  list_to_set ["os"; "sys"; "subprocess"; "socket"; "requests"; "urllib"; "http"; "ftplib";
               "telnetlib"; "smtplib"; "ssl"; "pathlib"; "shutil"; "tempfile"; "io";
               "pickle"; "importlib"; "__builtins__"].

(** The [for] loops of the scan: each appends at most one issue per item. *)
Definition scan {A} (items : list A) (hit : A → res bool) (issue : A → string)
  : res (list string) :=
  foldM (λ issues x, b ← hit x; Ret (if b : bool then issues ++ [issue x] else issues))
        [] items.

Definition _check_code_security (code : val) : res (list string) :=
  imports ← scan (elements blocked_modules)
      (λ module,
         a ← py_contains ("import " +:+ module) code;
         if a : bool then Ret true else py_contains ("from " +:+ module) code)
      (λ module, "Blocked module import: " +:+ module);
  let dangerous_funcs := ["eval("; "exec("; "__import__("] in
  funcs ← scan dangerous_funcs
      (λ func, py_contains func code)
      (λ func, "Blocked function usage: " +:+ strip_chars "(" func);
  attrs ← scan (elements blocked_modules)
      (λ module, py_contains (module +:+ ".") code)
      (λ module, "Blocked attribute access on module: " +:+ module);
  Ret (imports ++ funcs ++ attrs).

(** The methods an instance has that take the script and return a list of
    issues; [self.<attr>] for any other name of that kind raises. *)
Definition scan_methods : list (string * (val → res (list string))) :=
  [("_check_code_security", _check_code_security)].

Definition getattr_scan (attr : string) : res (val → res (list string)) :=
  match dict_get attr scan_methods with
  | Some method => Ret method
  | None =>
      Raise (AttributeError ("'CodeExecuteTool' object has no attribute '" +:+ attr +:+ "'"))
  end.

(** What [execute] can hand back: a value, or (the last line of its [try])
    the method object [self.format_result] itself. *)
Inductive returned : Type :=
| Value (v : val)
| BoundMethod (owner attr : string).

(** [secure_import(name)]: [None] when the import is let through. *)
Definition secure_import (name : string) : option exn :=
  if bool_decide (name ∈ blocked_modules) then
    Some (Exn "ImportError" ("Import of " +:+ name +:+ " is not allowed"))
  else if bool_decide (name ∉ allowed_modules)
          && forallb (λ m, negb (starts_with (m +:+ ".") name)) (elements allowed_modules) then
    Some (Exn "ImportError" ("Module " +:+ name +:+ " is not allowed"))
  else None.

(** What one [exec(code, execution_globals)] leaves behind: the text it
    wrote to the two captured streams, and the exception that ended it. *)
Record exec_outcome : Type := ExecOutcome {
  out_stdout : string;
  out_stderr : string;
  out_raised : option exn;
}.

Section WithInterpreter.
Context `{Runtime}.
(** The host: its clock, [time.time()], and the interpreter behind [exec],
    which takes the host from the state before the script to the state
    after it (a script that never ends has no outcome and is not in the
    model). *)
Context {host : Type}.
Variable time_time : host → Q.
Variable exec : string → host → exec_outcome * host.

(** [elapsed < timeout] *)
Definition within (elapsed : Q) (timeout : val) : res bool :=
  match num_of timeout with
  | Some t => Ret (negb (Qle_bool t elapsed))
  | None => Raise (unorderable "<" (VFloat elapsed) (type_name timeout))
  end.

Definition run_exec (code : val) (w : host) : exec_outcome * host :=
  match code with
  | VStr text => exec text w
  | _ => (ExecOutcome "" ""
            (Some (TypeError "exec() arg 1 must be a string, bytes or code object")), w)
  end.

(** The body always leaves the [while] loop by [break], so the loop is its
    first test: the body once, or the [else] branch. *)
Definition _execute_code (code : val) (timeout : val) (w : host) : val * host :=
  let start_time := time_time w in
  let '(out, execution_timeout, w1) :=
    match within (time_time w - start_time) timeout with
    | Ret true => let '(out, w1) := run_exec code w in (out, false, w1)
    | Ret false => (ExecOutcome "" "" None, true, w)
    | Raise e => (ExecOutcome "" "" (Some e), false, w)
    end in
  let execution_error := out_raised out in
  let result :=
    [("stdout", VStr (out_stdout out));
     ("stderr", VStr (out_stderr out));
     ("execution_time", VFloat (time_time w1 - start_time))] in
  let result :=
    if execution_timeout : bool
    then dict_set "error" (VStr ("Execution timed out after " +:+ str timeout +:+ " seconds"))
           result
    else result in
  let result :=
    match execution_error with
    | Some e => dict_set "traceback" (VStr format_exc) (dict_set "error" (VStr (exn_str e)) result)
    | None => result
    end in
  (VDict result, w1).

(** [_execute_code] catches what the script raises, so the [except] clause
    of [execute] has nothing to catch. *)
Definition execute (params : list (string * val)) (w : host) : res returned * host :=
  match Base.validate_params (Base.parameters spec) params with
  | Raise e => (Raise e, w)
  | Ret ((_ :: _) as errors) =>
      (Ret (Value (Base.format_error spec (Base.ErrVal (VStr (join "," errors))))), w)
  | Ret [] =>
      match dict_get "code" params with
      | None => (Raise (KeyError "'code'"), w)
      | Some code =>
          let timeout := default (VInt 10) (dict_get "timeout" params) in
          match check_code_security ← getattr_scan "check_code_security";
                check_code_security code with
          | Raise e => (Raise e, w)
          | Ret ((_ :: _) as security_errors) =>
              (Ret (Value (Base.format_error spec
                      (Base.ErrVal (VStr ("Security error: " +:+ join ", " security_errors))))), w)
          | Ret [] =>
              let '(result, w1) := _execute_code code timeout w in
              (Ret (BoundMethod "CodeExecuteTool" "format_result"), w1)
          end
      end
  end.

End WithInterpreter.

End CodeExecute.

(* ===================================================================== *)
(** ** app/agent/orchestrator.py: AgentOrchestrator *)
(* ===================================================================== *)

Module Orchestrator.
Import Py.

Definition OPENAI_MODEL : string := "gpt-4o-mini".

(** One entry of [self.messages]; [content] is text, or [None] when the
    chat service answered without text. *)
Record message : Type := Message { role : string; content : val }.

(** The keyword arguments of [chat.completions.create]. *)
Record chat_request : Type := ChatRequest {
  req_model : string;
  req_messages : list message;
  req_temperature : Q;
  req_json_object : bool;
}.

(** [v[k]] for a text key [k]. *)
Definition py_getitem `{Runtime} (v : val) (k : string) : res val :=
  match v with
  | VDict d =>
      match dict_get k d with
      | Some x => Ret x
      | None => Raise (KeyError (repr (VStr k)))
      end
  | VStr _ => Raise (TypeError "string indices must be integers, not 'str'")
  | VList _ => Raise (TypeError "list indices must be integers or slices, not str")
  | _ => Raise (TypeError ("'" +:+ type_name v +:+ "' object is not subscriptable"))
  end.

(** The loop of _extract_pdf_urls_from_search.  It runs inside the [try]:
    an entry that raises ends the scan with the links found so far. *)
Fixpoint scan_links (results : list val) (pdf_urls : list val) : list val :=
  match results with
  | [] => pdf_urls
  | result :: rest =>
      match (link ← py_get result "link" (VStr "");
             low ← py_lower link;
             Ret (link, ends_with ".pdf" low)) with
      | Ret (link, true) => scan_links rest (pdf_urls ++ [link])
      | Ret (_, false) => scan_links rest pdf_urls
      | Raise _ => pdf_urls
      end
  end.

Definition _extract_pdf_urls_from_search `{Runtime} (search_result : val) : list val :=
  match (success ← py_get search_result "success" VNone;
         if truthy success then
           has_result ← py_contains "result" search_result;
           if has_result : bool then
             payload ← py_getitem search_result "result";
             results ← py_get payload "results" (VList []);
             items ← py_iter results;
             Ret (Some items)
           else Ret None
         else Ret None) with
  | Ret (Some items) => scan_links items []
  | Ret None => []
  | Raise _ => []
  end.

(** What the [except] clause of _execute_tools records. *)
Definition failure_record (e : exn) : val :=
  VDict [("error", VStr (exn_str e)); ("success", VBool false)].

(** A tuple [(tool_name, result)] seen as a value. *)
Definition pair_val (p : string * val) : val := VList [VStr p.1; p.2].

Section WithWorld.
Context `{Runtime}.
(** Everything outside the process (the network behind the tools and the
    chat service) is a state that each call may read and change. *)
Context {world : Type}.

(** A registered tool: what [BaseTool.__init__] stored, and [execute]. *)
Record tool : Type := RegisteredTool {
  tool_base : Base.BaseTool;
  tool_execute : val → val → world → res val * world;
}.

(** [self.tools] is a dict in insertion order. *)
Record orchestrator : Type := AgentOrchestrator {
  tools : list (string * tool);
  conversation_id : string;
  messages : list message;
}.

(** [chat.completions.create(...)] followed by
    [response.choices[0].message.content]: the content of the reply, or
    the failure of either step. *)
Variable chat_create : chat_request → world → res val * world.
(** The two system prompt literals. *)
Variable select_system_prompt : string.
Variable response_system_prompt : string.

Definition spec_val (spec : Base.param_spec) : val :=
  VDict ((match Base.ps_type spec with Some t => [("type", VStr t)] | None => [] end)
         ++ [("description", VStr (Base.ps_description spec))]
         ++ (match Base.ps_default spec with Some v => [("default", v)] | None => [] end)
         ++ [("required", VBool (Base.ps_required spec))]
         ++ (match Base.ps_enum spec with Some vs => [("enum", VList vs)] | None => [] end)
         ++ (match Base.ps_minimum spec with Some n => [("minimum", VInt n)] | None => [] end)
         ++ (match Base.ps_maximum spec with Some n => [("maximum", VInt n)] | None => [] end)).

Definition tool_descriptions (self : orchestrator) : val :=
  VList ((λ '(name, t),
            VDict [("name", VStr name);
                   ("description", VStr (Base.description (tool_base t)));
                   ("parameters",
                    VDict (prod_map id spec_val <$> Base.parameters (tool_base t)))])
         <$> tools self).

Definition indent : string := "        ".

Definition select_user_prompt (self : orchestrator) (query : string) : string :=
  newline +:+ indent +:+ "Query: " +:+ query +:+ newline +:+ newline
  +:+ indent +:+ "Available tools:" +:+ newline
  +:+ indent +:+ json_dumps (tool_descriptions self) +:+ newline
  +:+ indent +:+ "Select the appropriate tools and parameters to answer the query." +:+ newline
  +:+ indent.

(** [tool_name in self.tools]: a list or a dict cannot be hashed; a key
    that is not text is in no registry. *)
Definition registered (self : orchestrator) (tool_name : val) : res (option string) :=
  match tool_name with
  | VStr n => Ret (if dict_mem n (tools self) then Some n else None)
  | VList _ | VDict _ => Raise (TypeError ("unhashable type: '" +:+ type_name tool_name +:+ "'"))
  | _ => Ret None
  end.

(** The body of the loop "Extract tool selections". *)
Definition select_one (self : orchestrator) (query : string)
    (selected_tools : list (string * val)) (tool : val) : res (list (string * val)) :=
  tool_name ← py_get tool "name" VNone;
  params ← py_get tool "params" (VDict []);
  known ← registered self tool_name;
  match known with
  | Some tool_name =>
      params ←
        (if String.eqb tool_name "web_search" then
           has_query ← py_contains "query" params;
           if has_query : bool then Ret params
           else py_setitem params "query" (VStr query)
         else Ret params);
      Ret (selected_tools ++ [(tool_name, params)])
  | None => Ret selected_tools
  end.

(** [json.loads(content)] *)
Definition loads (content : val) : res val :=
  match content with
  | VStr text => json_loads text
  | _ => Raise (TypeError ("the JSON object must be str, bytes or bytearray, not "
                           +:+ type_name content))
  end.

Definition fallback_selection (self : orchestrator) (query : string) : list (string * val) :=
  if dict_mem "web_search" (tools self)
  then [("web_search", VDict [("query", VStr query)])]
  else [].

(** The [try] block of _select_tools once the chat service has answered. *)
Definition select_from_reply (self : orchestrator) (query : string) (reply : res val)
  : res (list (string * val)) :=
  content ← reply;
  data ← loads content;
  listed ← py_get data "tools" (VList []);
  items ← py_iter listed;
  foldM (select_one self query) [] items.

Definition select_request (self : orchestrator) (query : string) : chat_request :=
  ChatRequest OPENAI_MODEL
    [Message "system" (VStr select_system_prompt);
     Message "user" (VStr (select_user_prompt self query))]
    (2 # 10) true.

Definition _select_tools (self : orchestrator) (query : string) (w : world)
  : list (string * val) * world :=
  let '(reply, w1) := chat_create (select_request self query) w in
  match select_from_reply self query reply with
  | Ret selected_tools => (selected_tools, w1)
  | Raise _ => (fallback_selection self query, w1)
  end.

(** The conditional step after a tool returned, still inside the [try]:
    the records to append, or what was raised on the way. *)
Definition chain_pdf (self : orchestrator) (query : string) (tool_name : string)
    (result : val) (w : world) : res (list (string * val)) * world :=
  if String.eqb tool_name "web_search" then
    match dict_get "pdf_parser" (tools self) with
    | None => (Ret [], w)
    | Some pdf_parser =>
        match py_get result "success" (VBool false) with
        | Raise e => (Raise e, w)
        | Ret success =>
            if truthy success then
              match _extract_pdf_urls_from_search result with
              | [] => (Ret [], w)
              | pdf_url :: _ =>
                  let '(r, w1) :=
                    tool_execute pdf_parser
                      (VDict [("url", pdf_url)])
                      (VDict [("query", VStr query); ("source", VStr "search_result")]) w in
                  (pdf_result ← r; Ret [("pdf_parser", pdf_result)], w1)
              end
            else (Ret [], w)
        end
    end
  else (Ret [], w).

(** The [context] handed to a tool. *)
Definition context_of (query : string) (results : list (string * val)) : val :=
  VDict [("query", VStr query);
         ("previous_results",
          match results with [] => VNone | _ => VList (pair_val <$> results) end)].

(** [self.tools[tool_name]] and then [tool.execute(params, context)]. *)
Definition call_tool (self : orchestrator) (tool_name : string) (params context : val)
    (w : world) : res val * world :=
  match dict_get tool_name (tools self) with
  | None => (Raise (KeyError (repr (VStr tool_name))), w)
  | Some tool => tool_execute tool params context w
  end.

(** One turn of the loop of _execute_tools. *)
Definition execute_one (self : orchestrator) (query : string)
    (results : list (string * val)) (invocation : string * val) (w : world)
  : list (string * val) * world :=
  let '(tool_name, params) := invocation in
  match call_tool self tool_name params (context_of query results) w with
  | (Raise e, w1) => (results ++ [(tool_name, failure_record e)], w1)
  | (Ret result, w1) =>
      let results := results ++ [(tool_name, result)] in
      match chain_pdf self query tool_name result w1 with
      | (Ret chained, w2) => (results ++ chained, w2)
      | (Raise e, w2) => (results ++ [(tool_name, failure_record e)], w2)
      end
  end.

Fixpoint execute_loop (self : orchestrator) (query : string)
    (selected_tools : list (string * val)) (results : list (string * val)) (w : world)
  : list (string * val) * world :=
  match selected_tools with
  | [] => (results, w)
  | invocation :: rest =>
      let '(results, w1) := execute_one self query results invocation w in
      execute_loop self query rest results w1
  end.

Definition _execute_tools (self : orchestrator) (selected_tools : list (string * val))
    (query : string) (w : world) : list (string * val) * world :=
  execute_loop self query selected_tools [] w.

Definition formatted_results (tool_results : list (string * val)) : string :=
  foldl (λ acc '(tool_name, result),
           let result_str := if Base.is_dict result then json_dumps result else str result in
           acc +:+ "**" +:+ tool_name +:+ "**:" +:+ newline +:+ result_str
               +:+ newline +:+ newline)
        "" tool_results.

Definition _create_response (self : orchestrator) (query : string)
    (tool_results : list (string * val)) (w : world) : val * world :=
  let formatted := formatted_results tool_results in
  let user_prompt :=
    "Question: " +:+ query +:+ newline +:+ newline
    +:+ (if negb (String.eqb formatted "")
         then "Tool results:" +:+ newline +:+ formatted
         else "No tools were used for this query") in
  let request :=
    ChatRequest OPENAI_MODEL
      [Message "system" (VStr response_system_prompt); Message "user" (VStr user_prompt)]
      (7 # 10) false in
  match chat_create request w with
  | (Ret content, w1) => (content, w1)
  | (Raise e, w1) =>
      (VStr ("An error occurred while generating the response: " +:+ exn_str e), w1)
  end.

(** The dict process_query returns. *)
Record query_result : Type := QueryResult {
  qr_conversation_id : string;
  qr_query : string;
  qr_response : val;
  qr_tools_used : list string;
  qr_tool_results : list (string * val);
}.

Definition process_query (self : orchestrator) (query : string) (w : world)
  : orchestrator * query_result * world :=
  let self := AgentOrchestrator (tools self) (conversation_id self)
                (messages self ++ [Message "user" (VStr query)]) in
  let '(selected_tools, w1) := _select_tools self query w in
  let '(tool_results, w2) := _execute_tools self selected_tools query w1 in
  let '(response, w3) := _create_response self query tool_results w2 in
  let self := AgentOrchestrator (tools self) (conversation_id self)
                (messages self ++ [Message "assistant" response]) in
  (self,
   QueryResult (conversation_id self) query response (fst <$> selected_tools)
     (foldl (λ d '(t, r), dict_set t r d) [] tool_results),
   w3).

End WithWorld.

End Orchestrator.

(* ===================================================================== *)
(** ** The tools as the engine calls them *)
(* ===================================================================== *)

(** The engine hands [execute] the parameters the oracle sent, of any
    shape; [ToolCall.validate_params] is validate_params on such a value
    (on a mapping it is [Base.validate_params]). *)
Module ToolCall.
Import Py.

Section WithRuntime.
Context `{Runtime}.

(** "Check required params": [param_name not in params] is asked only of
    a required parameter, and raises on a value that holds nothing. *)
Definition check_required (params : val) (errors : list string)
    (declared : string * Base.param_spec) : res (list string) :=
  let '(param_name, spec) := declared in
  if Base.ps_required spec then
    present ← py_contains param_name params;
    Ret (if present : bool then errors
         else errors ++ ["Missing required parameter: " +:+ param_name])
  else Ret errors.

(** "Check param types" starts with [params.items()]. *)
Definition validate_params (parameters : list (string * Base.param_spec)) (params : val)
  : res (list string) :=
  errors ← foldM (check_required params) [] parameters;
  match params with
  | VDict d =>
      foldM (λ errors '(param_name, param_value),
               es ← Base.check_param parameters param_name param_value;
               Ret (errors ++ es))
            errors d
  | _ => Raise (no_attribute params "items")
  end.

End WithRuntime.

End ToolCall.

(* ===================================================================== *)
(** ** app/tools/web_search.py: execute and search_serapi *)
(* ===================================================================== *)

Module WebSearchTool.
Import Py.

(** What the code reads of the HTTP response. *)
Record response : Type := Response {
  status : Z;
  text : res string;
  json : res val;
}.

(** [data["organic_results"][:"num_results"]]: the slice bound is text, so
    the subscript raises on every kind of value (on a dict the message is
    that of interpreters before 3.12). *)
Definition slice_by_text (v : val) : exn :=
  match v with
  | VList _ | VStr _ =>
      TypeError "slice indices must be integers or None or have an __index__ method"
  | VDict _ => TypeError "unhashable type: 'slice'"
  | _ => TypeError ("'" +:+ type_name v +:+ "' object is not subscriptable")
  end.

Section WithNetwork.
Context `{Runtime}.
Context {world : Type}.
(** [settings.WEB_SEARCH_API_KEY], read from the environment. *)
Variable api_key : option string.
(** [session.get(url, params=params)]. *)
Variable http_get : string → list (string * val) → world → res response * world.

Definition search_serapi (query num_results : val) (w : world) : res val * world :=
  match api_key with
  | None | Some EmptyString => (Raise (ValueError "No SerAPI key configured"), w)
  | Some key =>
      let params :=
        [("engine", VStr "google"); ("q", query); ("num", num_results);
         ("api_key", VStr key)] in
      match http_get "https://serpapi.com/search" params w with
      | (Raise e, w1) => (Raise e, w1)
      | (Ret response, w1) =>
          if negb (status response =? 200) then
            (error_text ← text response;
             Raise (ValueError ("API error: " +:+ str (VInt (status response))
                                +:+ " - " +:+ error_text)),
             w1)
          else
            (data ← json response;
             listed ← py_contains "organic_results" data;
             if listed : bool then
               organic ← Orchestrator.py_getitem data "organic_results";
               Raise (slice_by_text organic)
             else Ret (VDict [("query", query); ("result", VList []); ("count", VInt 0)]),
             w1)
      end
  end.

(** The methods of an instance that take one value and return the dict for
    the agent; [self.<attr>] for any other name of that kind raises. *)
Definition formatters : list (string * (val → val)) :=
  [("format_result", Base.format_result WebSearch.spec);
   ("format_error", λ error, Base.format_error WebSearch.spec (Base.ErrVal error))].

Definition getattr_formatter (attr : string) : res (val → val) :=
  match dict_get attr formatters with
  | Some method => Ret method
  | None =>
      Raise (AttributeError ("'WebSearchTool' object has no attribute '" +:+ attr +:+ "'"))
  end.

Definition execute (params context : val) (w : world) : res val * world :=
  match ToolCall.validate_params (Base.parameters WebSearch.spec) params with
  | Raise e => (Raise e, w)
  | Ret ((_ :: _) as errors) =>
      (Ret (Base.format_error WebSearch.spec (Base.ErrVal (VStr (join "," errors)))), w)
  | Ret [] =>
      match (query ← Orchestrator.py_getitem params "query";
             num_results ← py_get params "num_results" (VInt 5);
             Ret (query, num_results)) with
      | Raise e => (Raise e, w)
      | Ret (query, num_results) =>
          let '(searched, w1) := search_serapi query num_results w in
          match (results ← searched;
                 format_results ← getattr_formatter "format_results";
                 Ret (format_results results)) with
          | Ret formatted => (Ret formatted, w1)
          | Raise e =>
              (Ret (Base.format_error WebSearch.spec (Base.ErrVal (VStr (exn_str e)))), w1)
          end
      end
  end.

End WithNetwork.

End WebSearchTool.

(* ===================================================================== *)
(** ** app/tools/pdf_parser.py: execute, _download_pdf, _extract_pdf_content *)
(* ===================================================================== *)

Module PdfParserTool.
Import Py.

(** What _download_pdf reads of the HTTP response. *)
Record response : Type := Response {
  status : Z;
  content_type : option string;
  read : res string;
}.

(** What _extract_pdf_content reads of an opened document; [page_text i]
    is [doc[i].get_text()]. *)
Record document : Type := Document {
  metadata : val;
  page_count : Z;
  page_text : Z → res string;
}.

(** [map] over a list with a body that can raise. *)
Fixpoint mapM {A B} (f : A → res B) (xs : list A) : res (list B) :=
  match xs with
  | [] => Ret []
  | x :: xs' => y ← f x; ys ← mapM f xs'; Ret (y :: ys)
  end.

(** The page numbers _extract_pdf_content reads: the requested ones, or
    the first pages up to the limit when none is requested, that the
    document has. *)
Definition pages_to_read (max_pages : nat) (total_pages : Z) (page_numbers : list Z) : list Z :=
  let page_numbers :=
    match page_numbers with
    | [] => PdfParser.range 1 (Z.min (total_pages + 1) (Z.of_nat max_pages + 1))
    | _ => page_numbers
    end in
  List.filter (λ p, (1 <=? p) && (p <=? total_pages)) page_numbers.

Section WithFiles.
Context `{Runtime}.
Context {world : Type}.
(** [self.max_pages] *)
Variable max_pages : nat.
(** [session.get(url)] *)
Variable http_get : string → world → res response * world.
(** [tempfile.NamedTemporaryFile(suffix=".pdf", delete=False)], the write,
    and the name of the file. *)
Variable save_temp : string → world → res string * world.
(** [import fitz] and [fitz.open(path)] *)
Variable fitz_open : string → world → res document * world.
(** [os.remove(path)] *)
Variable os_remove : string → world → res unit * world.

Definition _download_pdf (url : string) (w : world) : res string * world :=
  match http_get url w with
  | (Raise e, w1) => (Raise e, w1)
  | (Ret response, w1) =>
      if negb (status response =? 200) then
        (Raise (Exn "Exception"
                  ("Failed to download PDF: HTTP " +:+ str (VInt (status response)))), w1)
      else
        let content_type := default "" (content_type response) in
        if negb (contains "application/pdf" content_type)
           && negb (ends_with ".pdf" (lower url)) then
          (Raise (Exn "Exception" "URL does not point to a PDF document"), w1)
        else (read response, w1)
  end.

Definition page_entry (page_num : Z) (text : string) : val :=
  VDict [("page_number", VInt page_num); ("text", VStr text)].

(** The [except ImportError] clause around the body: an ImportError (of
    [import fitz]) is raised again as a plain Exception. *)
Definition reraised (e : exn) : exn :=
  if String.eqb (exn_type e) "ImportError"
  then Exn "Exception" "PyMuPDF (fitz) not installed"
  else e.

Definition _extract_pdf_content (pdf_path : string) (page_numbers : list Z) (w : world)
  : res val * world :=
  match fitz_open pdf_path w with
  | (Raise e, w1) => (Raise (reraised e), w1)
  | (Ret doc, w1) =>
      let total_pages := page_count doc in
      let page_numbers := pages_to_read max_pages total_pages page_numbers in
      match (title ← py_get (metadata doc) "title" (VStr "");
             author ← py_get (metadata doc) "author" (VStr "");
             pages ← mapM (λ page_num,
                             text ← page_text doc (page_num - 1);
                             Ret (page_entry page_num text))
                          page_numbers;
             Ret (VDict [("metadata",
                          VDict [("title", title); ("author", author);
                                 ("total_pages", VInt total_pages)]);
                         ("pages", VList pages)])) with
      | Ret content => (Ret content, w1)
      | Raise e => (Raise (reraised e), w1)
      end
  end.

(** [self._parse_page_range(pages)] on what [params.get("pages")] gave. *)
Definition parse_pages (pages : val) : res (list Z) :=
  match pages with
  | VStr s => PdfParser._parse_page_range max_pages (Some s)
  | _ => if truthy pages then Raise (no_attribute pages "split") else Ret []
  end.

(** The path a value names when it is used as one. *)
Definition as_path (v : val) : res string :=
  match v with
  | VStr s => Ret s
  | _ => Raise (TypeError ("expected str, bytes or os.PathLike object, not " +:+ type_name v))
  end.

(** The [try] block of execute. *)
Definition run (url file_path pages : val) (w : world) : res val * world :=
  let '(located, w1) :=
    if truthy url then
      match as_path url with
      | Raise e => (Raise e, w)
      | Ret url_text =>
          match _download_pdf url_text w with
          | (Raise e, w1) => (Raise e, w1)
          | (Ret pdf_content, w1) => save_temp pdf_content w1
          end
      end
    else (as_path file_path, w) in
  match located with
  | Raise e => (Raise e, w1)
  | Ret temp_path =>
      match parse_pages pages with
      | Raise e => (Raise e, w1)
      | Ret page_numbers =>
          match _extract_pdf_content temp_path page_numbers w1 with
          | (Raise e, w2) => (Raise e, w2)
          | (Ret content, w2) =>
              if truthy url && truthy (VStr temp_path) then
                match os_remove temp_path w2 with
                | (Raise e, w3) => (Raise e, w3)
                | (Ret _, w3) => (Ret (Base.format_result PdfParser.spec content), w3)
                end
              else (Ret (Base.format_result PdfParser.spec content), w2)
          end
      end
  end.

Definition execute (params : list (string * val)) (w : world) : res val * world :=
  match Base.validate_params (Base.parameters PdfParser.spec) params with
  | Raise e => (Raise e, w)
  | Ret ((_ :: _) as errors) =>
      (Ret (Base.format_error PdfParser.spec (Base.ErrVal (VStr (join "," errors)))), w)
  | Ret [] =>
      let url := default VNone (dict_get "url" params) in
      let file_path := default VNone (dict_get "file_path" params) in
      let pages := default VNone (dict_get "pages" params) in
      if negb (truthy url) && negb (truthy file_path) then
        (Ret (Base.format_error PdfParser.spec (Base.ErrVal (VStr "Url and file_path is required"))),
         w)
      else
        match run url file_path pages w with
        | (Ret result, w1) => (Ret result, w1)
        | (Raise e, w1) => (Ret (Base.format_error PdfParser.spec (Base.ErrExn e)), w1)
        end
  end.

End WithFiles.

End PdfParserTool.

(* ===================================================================== *)
(** ** app/main.py: the conversations and their endpoints *)
(* ===================================================================== *)

Module Main.
Import Py.

(** [QueryRequest]. *)
Record QueryRequest : Type := Query {
  query : string;
  conversation_id : option string;
  file_id : option string;
}.

(** What an endpoint answers: its value, or the [HTTPException] it raises. *)
Inductive answer (A : Type) : Type :=
| Answer (a : A)
| HTTPException (status_code : Z) (detail : string).
Arguments Answer {A} a.
Arguments HTTPException {A} status_code detail.

Section WithServices.
Context `{Runtime}.
Context {world : Type}.
Variable chat_create : Orchestrator.chat_request → world → res val * world.
Variable select_system_prompt response_system_prompt : string.
(** The module-level [tools] dict. *)
Variable tools : list (string * Orchestrator.tool (world:=world)).
(** [str(uuid.uuid4())] *)
Variable uuid4 : world → string * world.
(** [OpenAI(api_key=settings.OPENAI_API_KEY)], which raises when no key is
    configured; the outcome is the same for every orchestrator. *)
Variable openai_client : res unit.

(** The module-level [conversations] dict.  An orchestrator is held by
    reference: what process_query appends to its messages is seen through
    the dict, so the endpoint below writes the orchestrator back. *)
Abbreviation conversations := (gmap string (Orchestrator.orchestrator (world:=world))).

(** [AgentOrchestrator(tools=tools)]: the id is drawn before the client is
    built. *)
Definition new_orchestrator (w : world)
  : res (Orchestrator.orchestrator (world:=world)) * world :=
  let '(drawn, w1) := uuid4 w in
  (_ ← openai_client; Ret (Orchestrator.AgentOrchestrator tools drawn []), w1).

Definition get_orchestrator (conversation_id : option string) (known : conversations)
    (w : world) : res (Orchestrator.orchestrator (world:=world)) * conversations * world :=
  let given :=
    match conversation_id with
    | Some (String _ _ as id) => Some id
    | _ => None
    end in
  match given ≫= λ id, known !! id with
  | Some orchestrator => (Ret orchestrator, known, w)
  | None =>
      match new_orchestrator w with
      | (Raise e, w1) => (Raise e, known, w1)
      | (Ret orchestrator, w1) =>
          let orchestrator :=
            match given with
            | Some id =>
                Orchestrator.AgentOrchestrator (Orchestrator.tools orchestrator) id
                  (Orchestrator.messages orchestrator)
            | None => orchestrator
            end in
          (Ret orchestrator,
           <[Orchestrator.conversation_id orchestrator := orchestrator]> known, w1)
      end
  end.

(** [POST /api/chat].  The [context] built from [file_id] is only logged by
    process_query. *)
Definition process_query (request : QueryRequest) (known : conversations) (w : world)
  : answer Orchestrator.query_result * conversations * world :=
  match get_orchestrator (conversation_id request) known w with
  | (Raise e, known1, w1) => (HTTPException 500 (exn_str e), known1, w1)
  | (Ret orchestrator, known1, w1) =>
      let '(orchestrator, result, w2) :=
        Orchestrator.process_query chat_create select_system_prompt response_system_prompt
          orchestrator (query request) w1 in
      (Answer result,
       <[Orchestrator.conversation_id orchestrator := orchestrator]> known1, w2)
  end.



End WithServices.

End Main.

(* ===================================================================== *)
(** * Properties *)
(* ===================================================================== *)

Import Py.

(** A runtime for the closed examples below; none of them depends on what
    these built-ins print, and [json.loads] gives the value it is told to. *)
Definition canned_runtime (loaded : res val) : Runtime :=
  {| repr := λ _, "<repr>";
     json_dumps := λ _, "<json>";
     json_loads := λ _, loaded;
     format_exc := "NoneType: None" |}.

(** ** Loops that can raise *)

Lemma foldM_app {A B} (f : B → A → res B) (acc : B) (xs ys : list A) :
  foldM f acc (xs ++ ys) = (acc' ← foldM f acc xs; foldM f acc' ys).
Proof.
  revert acc. induction xs as [|x xs IH]; intros acc; simpl; [done|].
  destruct (f acc x) as [acc'|e]; simpl; [apply IH | done].
Qed.

(** An invariant of the accumulator survives a loop whose body keeps it. *)
Lemma foldM_invariant {A B} (P : B → Prop) (f : B → A → res B) (xs : list A) (acc out : B) :
  (∀ b x b', P b → f b x = Ret b' → P b') →
  P acc → foldM f acc xs = Ret out → P out.
Proof.
  intros Hstep. revert acc. induction xs as [|x xs IH]; intros acc Hacc Hrun; simpl in Hrun.
  - by injection Hrun as <-.
  - destruct (f acc x) as [acc'|e] eqn:Hf; simpl in Hrun; [|done].
    eapply IH; [|done]. eauto.
Qed.

Lemma foldM_ext {A B} (f g : B → A → res B) (xs : list A) (acc : B) :
  (∀ b x, f b x = g b x) → foldM f acc xs = foldM g acc xs.
Proof.
  intros Hfg. revert acc. induction xs as [|x xs IH]; intros acc; simpl; [done|].
  rewrite Hfg. destruct (g acc x); simpl; [apply IH | done].
Qed.

(** A loop whose body returns on every item returns. *)
Lemma foldM_returns {A B} (f : B → A → res B) (xs : list A) (acc : B) :
  (∀ b x, x ∈ xs → ∃ b', f b x = Ret b') → ∃ out, foldM f acc xs = Ret out.
Proof.
  revert acc. induction xs as [|x xs IH]; intros acc Hf; simpl; [by eexists|].
  destruct (Hf acc x) as [acc' ->]; [by left|]. simpl.
  apply IH. intros b y Hy. apply Hf. by right.
Qed.

(** ** pdf_parser: the page-range parser *)

Section PageRange.
Context `{Runtime}.

Lemma sorted_set_strictly_sorted (xs : list Z) :
  StronglySorted Z.lt (PdfParser.sorted_set xs).
Proof.
  unfold PdfParser.sorted_set.
  assert (Hs : StronglySorted Z.le (merge_sort Z.le (remove_dups xs)))
    by apply (StronglySorted_merge_sort _).
  assert (Hn : NoDup (merge_sort Z.le (remove_dups xs))).
  { rewrite merge_sort_Permutation. apply NoDup_remove_dups. }
  induction Hs as [|x l Hs IH Hall]; [constructor|].
  apply NoDup_cons in Hn as [Hx Hn].
  constructor; [by apply IH|].
  rewrite Forall_forall in Hall |- *. intros y Hy.
  specialize (Hall y Hy). assert (x ≠ y) by (intros ->; done). lia.
Qed.

Lemma sorted_set_elem_of (xs : list Z) (x : Z) : x ∈ PdfParser.sorted_set xs ↔ x ∈ xs.
Proof.
  unfold PdfParser.sorted_set. by rewrite merge_sort_Permutation, elem_of_remove_dups.
Qed.

Lemma strictly_sorted_take (n : nat) (l : list Z) :
  StronglySorted Z.lt l → StronglySorted Z.lt (take n l).
Proof.
  intros Hl. rewrite <- (take_drop n l) in Hl. by apply StronglySorted_app_1_l in Hl.
Qed.

Lemma parse_page_range_result_shape (max_pages : nat) (pages_str : option string)
    (pages : list Z) :
  PdfParser._parse_page_range max_pages pages_str = Ret pages →
  StronglySorted Z.lt pages ∧ (length pages ≤ max_pages)%nat.
Proof.
  unfold PdfParser._parse_page_range.
  destruct pages_str as [[|c s]|].
  1, 3: intros [= <-]; split; [constructor | simpl; lia].
  destruct (foldM _ _ _) as [page_numbers|e]; simpl; [|done].
  intros [= <-].
  pose proof (sorted_set_strictly_sorted page_numbers) as Hs.
  destruct (Nat.ltb_spec max_pages (length (PdfParser.sorted_set page_numbers))).
  - split; [by apply strictly_sorted_take | rewrite length_take; lia].
  - split; [done | lia].
Qed.

(** X5: Whenever the parser returns, its list is strictly increasing (so sorted
    and without repeats) and no longer than the page limit. *)
Lemma parse_page_range_sorted_bounded (max_pages : nat) (pages_str : option string)
    (pages : list Z) :
  PdfParser._parse_page_range max_pages pages_str = Ret pages →
  StronglySorted Z.lt pages ∧ (length pages ≤ max_pages)%nat.
Proof. apply parse_page_range_result_shape. Qed.

(** A part that reads [a-b] with [b < a] contributes the pages from [b]
    to [a]. *)
Lemma parse_part_reversed_range (page_numbers : list Z) :
  PdfParser.parse_part page_numbers " 7-4" = Ret (page_numbers ++ [4; 5; 6; 7]).
Proof. reflexivity. Qed.

(** A part that is no number is skipped. *)
Lemma parse_part_skips_unparsable (page_numbers : list Z) :
  PdfParser.parse_part page_numbers "x" = Ret page_numbers ∧
  PdfParser.parse_part page_numbers "3-y" = Ret page_numbers.
Proof. split; reflexivity. Qed.

(** A part with two hyphens is unpacked into [start, end] outside the
    [try], and the unpacking raises. *)
Lemma parse_part_two_hyphens_raises (page_numbers : list Z) :
  PdfParser.parse_part page_numbers "1-2-3"
  = Raise (ValueError "too many values to unpack (expected 2)").
Proof. reflexivity. Qed.





(** C10 (the parser never raises; its result is sorted, distinct and
    bounded; reversed ranges are normalized; unparsable fragments are
    skipped): on the pages string "1-2-3" the parser raises ValueError. *)
Theorem parse_page_range_raises_on_two_hyphens :
  PdfParser._parse_page_range Settings.PDF_MAX_PAGES (Some "1-2-3")
  = Raise (ValueError "too many values to unpack (expected 2)").
Proof. reflexivity. Qed.

(** The same in the middle of an otherwise fine list: the parts around it
    are lost with it. *)
Lemma parse_page_range_raises_among_good_parts :
  PdfParser._parse_page_range Settings.PDF_MAX_PAGES (Some "1,2-3-4,9")
  = Raise (ValueError "too many values to unpack (expected 2)").
Proof. reflexivity. Qed.

Lemma parse_page_range_example :
  PdfParser._parse_page_range 5 (Some "9-7, 2,x, 2, 1-3")
  = Ret [1; 2; 3; 7; 8].
Proof. reflexivity. Qed.

End PageRange.

(** ** BaseTool: parameter validation and the two formatters *)

Section Validation.
Context `{Runtime}.

(** A loop that appends what its body returns: the result is the start
    followed by the pieces, one per item. *)
Lemma foldM_appending {A E} (g : A → res (list E)) (xs : list A) (acc out : list E) :
  foldM (λ errors x, es ← g x; Ret (errors ++ es)) acc xs = Ret out →
  ∃ ess, Forall2 (λ x es, g x = Ret es) xs ess ∧ out = acc ++ mjoin ess.
Proof.
  revert acc. induction xs as [|x xs IH]; intros acc; simpl.
  - intros [= <-]. exists []. split; [constructor | by rewrite app_nil_r].
  - destruct (g x) as [es|e] eqn:Hg; simpl; [|done].
    intros Hrun. destruct (IH _ Hrun) as (ess & Hall & ->).
    exists (es :: ess). split; [by constructor | by rewrite <- app_assoc].
Qed.

Lemma validate_params_shape parameters params errors :
  Base.validate_params parameters params = Ret errors →
  ∃ ess,
    Forall2 (λ p es, Base.check_param parameters p.1 p.2 = Ret es) params ess ∧
    errors = Base.missing_errors parameters params ++ mjoin ess.
Proof.
  unfold Base.validate_params. intros Hrun.
  apply (foldM_appending (λ p, Base.check_param parameters p.1 p.2)).
  rewrite <- Hrun. apply foldM_ext. by intros errors' [param_name param_value].
Qed.

Lemma missing_errors_complete parameters params param_name spec :
  (param_name, spec) ∈ parameters →
  Base.ps_required spec = true →
  dict_get param_name params = None →
  ("Missing required parameter: " +:+ param_name) ∈ Base.missing_errors parameters params.
Proof.
  intros Hin Hreq Habs. unfold Base.missing_errors.
  apply list_elem_of_In, in_flat_map. exists (param_name, spec).
  split; [by apply list_elem_of_In|].
  unfold dict_mem. rewrite Hreq, Habs. simpl. by left.
Qed.

(** X1: Whenever validation returns, it has reported every violation of the
    two kinds: each required parameter that is missing and each supplied
    parameter that is not declared, by name. *)
Lemma validate_params_lists_missing_and_unknown parameters params errors :
  Base.validate_params parameters params = Ret errors →
  (∀ param_name spec,
      (param_name, spec) ∈ parameters → Base.ps_required spec = true →
      dict_get param_name params = None →
      ("Missing required parameter: " +:+ param_name) ∈ errors) ∧
  (∀ param_name param_value,
      (param_name, param_value) ∈ params → dict_get param_name parameters = None →
      ("Unknown parameter: " +:+ param_name) ∈ errors).
Proof.
  intros Hrun. destruct (validate_params_shape _ _ _ Hrun) as (ess & Hall & ->).
  split.
  - intros param_name spec Hin Hreq Habs. apply elem_of_app. left.
    by eapply missing_errors_complete.
  - intros param_name param_value Hin Hunk. apply elem_of_app. right.
    apply list_elem_of_lookup in Hin as [i Hi].
    destruct (Forall2_lookup_l _ _ _ _ _ Hall Hi) as (es & Hes & Hcheck).
    simpl in Hcheck. unfold Base.check_param in Hcheck. rewrite Hunk in Hcheck.
    injection Hcheck as <-.
    apply list_elem_of_join. exists ["Unknown parameter: " +:+ param_name].
    split; [by left | by eapply list_elem_of_lookup_2].
Qed.

Lemma validation_returns_on_numbers parameters params :
  (∀ param_name param_value spec,
      (param_name, param_value) ∈ params →
      dict_get param_name parameters = Some spec →
      (Base.ps_minimum spec = None ∧ Base.ps_maximum spec = None) ∨
      is_Some (num_of param_value)) →
  ∃ errors, Base.validate_params parameters params = Ret errors.
Proof.
  intros Hnum. unfold Base.validate_params.
  apply foldM_returns. intros errors [param_name param_value] Hin.
  unfold Base.check_param.
  destruct (dict_get param_name parameters) as [spec|] eqn:Hspec; [|by eexists].
  unfold Base.minimum_errors, Base.maximum_errors, py_lt_int, py_gt_int.
  destruct (Hnum _ _ _ Hin Hspec) as [[-> ->]|[q ->]]; simpl; [by eexists|].
  destruct (Base.ps_minimum spec), (Base.ps_maximum spec); simpl; by eexists.
Qed.

(** X2: Validation returns when every supplied value that meets a declared
    bound is a number. *)
Lemma validate_params_returns parameters params :
  (∀ param_name param_value spec,
      (param_name, param_value) ∈ params →
      dict_get param_name parameters = Some spec →
      (Base.ps_minimum spec = None ∧ Base.ps_maximum spec = None) ∨
      is_Some (num_of param_value)) →
  ∃ errors, Base.validate_params parameters params = Ret errors.
Proof. apply validation_returns_on_numbers. Qed.

(** C7 (validation reports every violation, for every parameter mapping and
    spec): with web_search's parameters, a mapping that leaves out the
    required [query], gives text for the bounded [num_results] and adds an
    undeclared [limit] makes validate_params raise TypeError at the bound
    check: no violation is reported. *)
Theorem validate_params_raises_at_bound_check :
  Base.validate_params (Base.parameters WebSearch.spec)
    [("num_results", VStr "ten"); ("limit", VInt 3)]
  = Raise (TypeError "'<' not supported between instances of 'str' and 'int'").
Proof. reflexivity. Qed.

(** The same mapping with a number for [num_results] gets the full report. *)
Lemma validate_params_full_report :
  Base.validate_params (Base.parameters WebSearch.spec)
    [("num_results", VInt 0); ("limit", VInt 3)]
  = Ret ["Missing required parameter: query";
         "Parameter num_results must be at least " +:+ repr (VInt 1);
         "Unknown parameter: limit"].
Proof. reflexivity. Qed.

Lemma format_error_of_exception self e :
  Base.format_error self (Base.ErrExn e)
  = VDict [("tool", VStr (Base.name self)); ("success", VBool false);
           ("result", VStr (exn_type e +:+ ": " +:+ exn_str e))].
Proof. reflexivity. Qed.

End Validation.

(** ** code_execute: the scan, the bounded run and [execute] *)

Section Sandbox.
Context `{Runtime}.
Context {host : Type}.
Variable time_time : host → Q.
Variable exec : string → host → CodeExecute.exec_outcome * host.

Lemma scan_loop_pure {A} (items : list A) (hit : A → res bool) (h : A → bool)
    (issue : A → string) (acc : list string) :
  (∀ x, hit x = Ret (h x)) →
  foldM (λ issues x, b ← hit x; Ret (if b : bool then issues ++ [issue x] else issues))
        acc items
  = Ret (acc ++ (issue <$> List.filter h items)).
Proof.
  intros Hhit. revert acc. induction items as [|x items IH]; intros acc; simpl.
  - by rewrite app_nil_r.
  - rewrite Hhit. simpl. destruct (h x); simpl.
    + rewrite IH. by rewrite <- app_assoc.
    + apply IH.
Qed.

(** A scan whose test never raises keeps, in order, the issues of the items
    that pass the test. *)
Lemma scan_pure {A} (items : list A) (hit : A → res bool) (h : A → bool)
    (issue : A → string) :
  (∀ x, hit x = Ret (h x)) →
  CodeExecute.scan items hit issue = Ret (issue <$> List.filter h items).
Proof. intros Hhit. unfold CodeExecute.scan. by rewrite (scan_loop_pure _ _ h). Qed.

(** On a script given as text the scan never raises, and its issues are
    these three lists. *)
Lemma check_code_security_of_text (code : string) :
  CodeExecute._check_code_security (VStr code)
  = Ret (((λ m, "Blocked module import: " +:+ m) <$>
            List.filter (λ m, contains ("import " +:+ m) code || contains ("from " +:+ m) code)
              (elements CodeExecute.blocked_modules))
         ++ ((λ f, "Blocked function usage: " +:+ strip_chars "(" f) <$>
               List.filter (λ f, contains f code) ["eval("; "exec("; "__import__("])
         ++ ((λ m, "Blocked attribute access on module: " +:+ m) <$>
               List.filter (λ m, contains (m +:+ ".") code)
                 (elements CodeExecute.blocked_modules))).
Proof.
  unfold CodeExecute._check_code_security.
  rewrite (scan_pure _ _
             (λ m, contains ("import " +:+ m) code || contains ("from " +:+ m) code)
             (λ m, "Blocked module import: " +:+ m)).
  2: { intros m. simpl. by destruct (contains ("import " +:+ m) code). }
  cbn [mbind res_bind bind].
  rewrite (scan_pure _ _ (λ f, contains f code)
             (λ f, "Blocked function usage: " +:+ strip_chars "(" f)); [|done].
  cbn [mbind res_bind bind].
  rewrite (scan_pure _ _ (λ m, contains (m +:+ ".") code)
             (λ m, "Blocked attribute access on module: " +:+ m)); [|done].
  reflexivity.
Qed.

Lemma elem_of_fmap_filter {A} (issue : A → string) (h : A → bool) (items : list A) (x : A) :
  x ∈ items → h x = true → issue x ∈ issue <$> List.filter h items.
Proof.
  intros Hx Hh. apply list_elem_of_fmap. exists x. split; [done|].
  apply list_elem_of_In, filter_In. split; [by apply list_elem_of_In | done].
Qed.

(** The scan itself does what the denylist asks: an import of a blocked
    module, an attribute access on one, or one of the three dynamic
    constructs gives an issue. *)
Lemma check_code_security_flags (code : string) :
  ∃ issues, CodeExecute._check_code_security (VStr code) = Ret issues ∧
    (∀ m, m ∈ CodeExecute.blocked_modules →
          contains ("import " +:+ m) code = true ∨ contains ("from " +:+ m) code = true ∨
          contains (m +:+ ".") code = true →
          issues ≠ []) ∧
    (∀ f, f ∈ ["eval("; "exec("; "__import__("] → contains f code = true → issues ≠ []).
Proof.
  eexists. split; [apply check_code_security_of_text|]. split.
  - intros m Hm Hhit.
    assert (Hel : m ∈ elements CodeExecute.blocked_modules) by by apply elem_of_elements.
    destruct Hhit as [Hi|[Hi|Hi]].
    + pose proof (elem_of_fmap_filter (λ m, "Blocked module import: " +:+ m)
        (λ m, contains ("import " +:+ m) code || contains ("from " +:+ m) code) _ m Hel) as Hin.
      simpl in Hin. rewrite Hi in Hin. specialize (Hin eq_refl).
      intros Hnil. apply app_eq_nil in Hnil as [Hnil _]. rewrite Hnil in Hin. inversion Hin.
    + pose proof (elem_of_fmap_filter (λ m, "Blocked module import: " +:+ m)
        (λ m, contains ("import " +:+ m) code || contains ("from " +:+ m) code) _ m Hel) as Hin.
      simpl in Hin. rewrite Hi, orb_true_r in Hin. specialize (Hin eq_refl).
      intros Hnil. apply app_eq_nil in Hnil as [Hnil _]. rewrite Hnil in Hin. inversion Hin.
    + pose proof (elem_of_fmap_filter (λ m, "Blocked attribute access on module: " +:+ m)
        (λ m, contains (m +:+ ".") code) _ m Hel Hi) as Hin.
      intros Hnil. apply app_eq_nil in Hnil as [_ Hnil]. apply app_eq_nil in Hnil as [_ Hnil].
      rewrite Hnil in Hin. inversion Hin.
  - intros f Hf Hi.
    pose proof (elem_of_fmap_filter (λ f, "Blocked function usage: " +:+ strip_chars "(" f)
        (λ f, contains f code) _ f Hf Hi) as Hin.
    intros Hnil. apply app_eq_nil in Hnil as [_ Hnil]. apply app_eq_nil in Hnil as [Hnil _].
    rewrite Hnil in Hin. inversion Hin.
Qed.

(** [execute] asks the instance for [check_code_security]; the class
    defines [_check_code_security]. *)
Lemma getattr_check_code_security :
  CodeExecute.getattr_scan "check_code_security"
  = Raise (AttributeError "'CodeExecuteTool' object has no attribute 'check_code_security'").
Proof. reflexivity. Qed.

Lemma validated_has_code (params : list (string * val)) :
  Base.validate_params (Base.parameters CodeExecute.spec) params = Ret [] →
  is_Some (dict_get "code" params).
Proof.
  intros Hv. destruct (validate_params_shape _ _ _ Hv) as (ess & _ & Hnil).
  symmetry in Hnil. apply app_eq_nil in Hnil as [Hmiss _].
  unfold Base.missing_errors, dict_mem in Hmiss. simpl in Hmiss.
  destruct (dict_get "code" params); [by eexists | done].
Qed.

(** Every submission that passes validation ends in the failed attribute
    lookup: nothing is scanned, nothing is run, no result is returned. *)
Lemma execute_validated_raises (params : list (string * val)) (w : host) :
  Base.validate_params (Base.parameters CodeExecute.spec) params = Ret [] →
  CodeExecute.execute time_time exec params w
  = (Raise (AttributeError "'CodeExecuteTool' object has no attribute 'check_code_security'"),
     w).
Proof.
  intros Hv. unfold CodeExecute.execute. rewrite Hv.
  destruct (validated_has_code _ Hv) as [code ->].
  by rewrite getattr_check_code_security.
Qed.

(** C2 (a clean script with valid parameters is executed and a successful
    result with its printed output is returned): [execute] on the script
    [print(1)] raises AttributeError instead of returning a result. *)
Theorem execute_clean_script_raises (w : host) :
  CodeExecute.execute time_time exec [("code", VStr "print(1)")] w
  = (Raise (AttributeError "'CodeExecuteTool' object has no attribute 'check_code_security'"),
     w).
Proof. by apply execute_validated_raises. Qed.

(** C4 (a script with a denylisted reference is rejected by the scan and the
    rejection is returned as a failed result): the scan would flag
    [import os], but [execute] never reaches it; it raises AttributeError
    and returns no result of its own. *)
Theorem execute_blocked_import_raises (w : host) :
  (∃ issues, CodeExecute._check_code_security (VStr "import os") = Ret issues ∧ issues ≠ []) ∧
  CodeExecute.execute time_time exec [("code", VStr "import os")] w
  = (Raise (AttributeError "'CodeExecuteTool' object has no attribute 'check_code_security'"),
     w).
Proof.
  split; [|by apply execute_validated_raises].
  destruct (check_code_security_flags "import os") as (issues & Hscan & Hmod & _).
  exists issues. split; [done|].
  apply (Hmod "os"); [|by left].
  unfold CodeExecute.blocked_modules. set_solver.
Qed.

(** With a positive bound the first test of the loop passes, the script
    runs to its end whatever time that takes, and the result carries the
    script's own error or none: the timeout flag is never set. *)
Lemma execute_code_positive_bound (text : string) (timeout : val) (t : Q) (w : host) :
  num_of timeout = Some t → (0 < t)%Q →
  ∃ result,
    CodeExecute._execute_code time_time exec (VStr text) timeout w
    = (VDict result, (exec text w).2) ∧
    dict_get "stdout" result = Some (VStr (CodeExecute.out_stdout (exec text w).1)) ∧
    dict_get "stderr" result = Some (VStr (CodeExecute.out_stderr (exec text w).1)) ∧
    dict_get "execution_time" result
      = Some (VFloat (time_time (exec text w).2 - time_time w)) ∧
    dict_get "error" result
      = (λ e, VStr (exn_str e)) <$> CodeExecute.out_raised (exec text w).1.
Proof.
  intros Ht Hpos. unfold CodeExecute._execute_code, CodeExecute.within. rewrite Ht.
  assert (Hle : Qle_bool t (time_time w - time_time w) = false).
  { apply not_true_is_false. intros Hle. apply Qle_bool_iff in Hle.
    assert (time_time w - time_time w == 0)%Q as Hz by ring.
    rewrite Hz in Hle. by apply Qle_not_lt in Hle. }
  rewrite Hle. simpl. destruct (exec text w) as [[out err raised] w1]. simpl.
  destruct raised as [e|]; simpl; eexists; (split; [reflexivity|]); simpl; auto.
Qed.

(** C3 (a script that runs longer than the bound is abandoned and the result
    is flagged as a timeout): under a positive bound [t], a script that
    takes longer than [t] still runs to its end, and the result's error is
    the script's own or absent, never the timeout message. *)
Theorem execute_code_overrun_not_flagged (text : string) (timeout : val) (t : Q) (w : host) :
  num_of timeout = Some t → (0 < t)%Q →
  (t < time_time (exec text w).2 - time_time w)%Q →
  ∃ result,
    CodeExecute._execute_code time_time exec (VStr text) timeout w
    = (VDict result, (exec text w).2) ∧
    dict_get "stdout" result = Some (VStr (CodeExecute.out_stdout (exec text w).1)) ∧
    dict_get "error" result
      = (λ e, VStr (exn_str e)) <$> CodeExecute.out_raised (exec text w).1.
Proof.
  intros Ht Hpos _.
  destruct (execute_code_positive_bound text timeout t w Ht Hpos)
    as (result & Hrun & Hout & _ & _ & Herr).
  by exists result.
Qed.

(** X14: The [else] branch of the loop is taken only when the bound is not
    positive, and then the script is not run at all. *)
Lemma execute_code_flags_only_nonpositive_bound (text : string) (timeout : val) (t : Q)
    (w : host) :
  num_of timeout = Some t → (t <= 0)%Q →
  CodeExecute._execute_code time_time exec (VStr text) timeout w
  = (VDict [("stdout", VStr ""); ("stderr", VStr "");
            ("execution_time", VFloat (time_time w - time_time w));
            ("error", VStr ("Execution timed out after " +:+ str timeout +:+ " seconds"))],
     w).
Proof.
  intros Ht Hle. unfold CodeExecute._execute_code, CodeExecute.within. rewrite Ht.
  assert (Hb : Qle_bool t (time_time w - time_time w) = true).
  { apply Qle_bool_iff. assert (time_time w - time_time w == 0)%Q as -> by ring. done. }
  by rewrite Hb.
Qed.

End Sandbox.

(** A host that is only a clock, and a script that prints one line and
    takes five seconds. *)
Definition slow_script (text : string) (clock : Q) : CodeExecute.exec_outcome * Q :=
  (CodeExecute.ExecOutcome ("4999999950000000" +:+ newline) "" None, (clock + 5)%Q).

Lemma execute_code_overrun_not_flagged_witness :
  ∃ result,
    CodeExecute._execute_code (H:=canned_runtime (Ret VNone)) id slow_script
      (VStr "print(sum(range(10**8)))") (VInt 1) 0%Q
    = (VDict result, (0 + 5)%Q) ∧
    dict_get "stdout" result = Some (VStr ("4999999950000000" +:+ newline)) ∧
    dict_get "error" result = None.
Proof.
  apply (execute_code_overrun_not_flagged (H:=canned_runtime (Ret VNone)) id slow_script
           "print(sum(range(10**8)))" (VInt 1) 1%Q 0%Q);
    [reflexivity | reflexivity | reflexivity].
Defined.

(** ** The execution engine *)

Section Engine.
Context `{Runtime}.
Context {world : Type}.
Implicit Types (self : Orchestrator.orchestrator (world:=world)).
Implicit Types (results : list (string * val)) (w : world).

Lemma execute_loop_app self query (xs ys : list (string * val)) results w :
  Orchestrator.execute_loop self query (xs ++ ys) results w
  = Orchestrator.execute_loop self query ys
      (Orchestrator.execute_loop self query xs results w).1
      (Orchestrator.execute_loop self query xs results w).2.
Proof.
  revert results w. induction xs as [|x xs IH]; intros results w; simpl; [done|].
  destruct (Orchestrator.execute_one self query results x w) as [results1 w1].
  apply IH.
Qed.

(** A value some registered tool returned. *)
Definition returned_by_tool self (result : val) : Prop :=
  ∃ tool_name tool params context w w',
    dict_get tool_name (Orchestrator.tools self) = Some tool ∧
    Orchestrator.tool_execute tool params context w = (Ret result, w').

(** What the engine itself writes when a turn raised. *)
Definition captured_failure (result : val) : Prop :=
  ∃ diagnostic : string,
    result = VDict [("error", VStr diagnostic); ("success", VBool false)].

(** One turn appends a record under the invocation's own name and at most
    one more; each is a tool's return value or a captured failure. *)
Lemma execute_one_appends self query results (invocation : string * val) w :
  ∃ (first : val) (more : list (string * val)),
    (Orchestrator.execute_one self query results invocation w).1
    = results ++ (invocation.1, first) :: more ∧
    (length more ≤ 1)%nat ∧
    Forall (λ p, returned_by_tool self p.2 ∨ captured_failure p.2)
           ((invocation.1, first) :: more).
Proof.
  destruct invocation as [tool_name params]. unfold Orchestrator.execute_one.
  destruct (Orchestrator.call_tool self tool_name params
              (Orchestrator.context_of query results) w) as [[result|e] w1] eqn:Hcall.
  - assert (Hres : returned_by_tool self result).
    { unfold Orchestrator.call_tool in Hcall.
      destruct (dict_get tool_name (Orchestrator.tools self)) as [tool|] eqn:Htool; [|done].
      by exists tool_name, tool, params, (Orchestrator.context_of query results), w, w1. }
    destruct (Orchestrator.chain_pdf self query tool_name result w1)
      as [[chained|e] w2] eqn:Hchain; simpl.
    + exists result, chained. split; [by rewrite <- app_assoc|].
      assert (Hchained : (length chained ≤ 1)%nat ∧
                Forall (λ p, returned_by_tool self p.2 ∨ captured_failure p.2) chained);
        [|destruct Hchained; split; [done|]; constructor; [by left | done]].
      unfold Orchestrator.chain_pdf in Hchain.
      destruct (String.eqb tool_name "web_search");
        [|injection Hchain as <- _; by split; [simpl; lia|]].
      destruct (dict_get "pdf_parser" (Orchestrator.tools self)) as [pdf|] eqn:Hpdf;
        [|injection Hchain as <- _; by split; [simpl; lia|]].
      destruct (py_get result "success" (VBool false)) as [success|?]; [|done].
      destruct (truthy success); [|injection Hchain as <- _; by split; [simpl; lia|]].
      destruct (Orchestrator._extract_pdf_urls_from_search result) as [|pdf_url ?];
        [injection Hchain as <- _; by split; [simpl; lia|]|].
      destruct (Orchestrator.tool_execute pdf _ _ w1) as [[pdf_result|?] w'] eqn:Hexec;
        simpl in Hchain; [|done].
      injection Hchain as <- _. split; [simpl; lia|]. constructor; [|constructor]. left.
      by eexists "pdf_parser", pdf, _, _, w1, w'.
    + exists result, [(tool_name, Orchestrator.failure_record e)].
      split; [by rewrite <- app_assoc|]. split; [simpl; lia|].
      constructor; [by left|]. constructor; [|constructor]. right. by eexists.
  - simpl. exists (Orchestrator.failure_record e), []. split; [done|]. split; [simpl; lia|].
    constructor; [|constructor]. right. by eexists.
Qed.

(** The whole loop only appends, the names of the invocations appear among
    the appended records in their order (every invocation is run and
    recorded, whatever the earlier ones did), and every appended record is
    a tool's return value or a captured failure. *)
Lemma execute_loop_appends self query (selected_tools : list (string * val)) results w :
  ∃ added : list (string * val),
    (Orchestrator.execute_loop self query selected_tools results w).1 = results ++ added ∧
    selected_tools.*1 `sublist_of` added.*1 ∧
    Forall (λ p, returned_by_tool self p.2 ∨ captured_failure p.2) added.
Proof.
  revert results w. induction selected_tools as [|invocation rest IH]; intros results w; simpl.
  - exists []. by rewrite app_nil_r.
  - destruct (execute_one_appends self query results invocation w)
      as (first & more & Hone & _ & Hall).
    destruct (Orchestrator.execute_one self query results invocation w) as [results1 w1].
    simpl in Hone. subst results1.
    destruct (IH (results ++ (invocation.1, first) :: more) w1) as (added & -> & Hsub & Hadd).
    exists (((invocation.1, first) :: more) ++ added).
    split; [by rewrite <- app_assoc|]. split.
    + rewrite fmap_app. simpl. apply sublist_skip.
      by apply sublist_inserts_l.
    + by apply Forall_app.
Qed.


(** C6, as amended (a failure raised by an invocation is recorded under its
    tool name with success=false and the failure's own message as the
    diagnostic, and every later invocation is still run and recorded):
    when the call of [(tool_name, params)] raises [e] after the invocations
    [before], the run goes on from that record through [after]. *)
Theorem failed_invocation_recorded_run_continues self (query : string)
    (before after : list (string * val)) (tool_name : string) (params : val) w
    (e : exn) (w' : world) :
  let earlier := Orchestrator._execute_tools self before query w in
  Orchestrator.call_tool self tool_name params
    (Orchestrator.context_of query earlier.1) earlier.2 = (Raise e, w') →
  ∃ later : list (string * val),
    Orchestrator._execute_tools self (before ++ (tool_name, params) :: after) query w
    = Orchestrator.execute_loop self query after
        (earlier.1 ++ [(tool_name, Orchestrator.failure_record e)]) w' ∧
    (Orchestrator._execute_tools self (before ++ (tool_name, params) :: after) query w).1
    = earlier.1
      ++ (tool_name, VDict [("error", VStr (exn_str e)); ("success", VBool false)]) :: later ∧
    after.*1 `sublist_of` later.*1.
Proof.
  intros earlier Hcall. unfold Orchestrator._execute_tools in *.
  rewrite execute_loop_app. fold earlier. simpl.
  unfold Orchestrator.execute_one. rewrite Hcall.
  destruct (execute_loop_appends self query after
              (earlier.1 ++ [(tool_name, Orchestrator.failure_record e)]) w')
    as (later & Hrun & Hsub & _).
  exists later. split; [done|]. split; [|done].
  rewrite Hrun. by rewrite <- app_assoc.
Qed.

End Engine.

(** ** Conditional chaining: a search result with a document link *)

(** An entry the scan passes over: a mapping whose link, when it has one,
    is text that does not end in [.pdf]. *)
Definition plain_entry (entry : val) : Prop :=
  ∃ (d : list (string * val)) (link : string),
    entry = VDict d ∧
    default (VStr "") (dict_get "link" d) = VStr link ∧
    ends_with ".pdf" (lower link) = false.

(** An entry whose link is [url], ending in [.pdf] whatever the case. *)
Definition pdf_entry (entry : val) (url : string) : Prop :=
  ∃ d : list (string * val),
    entry = VDict d ∧
    dict_get "link" d = Some (VStr url) ∧
    ends_with ".pdf" (lower url) = true.

(** A successful search result whose payload lists entries, the first one
    with a [.pdf] link being [url]. *)
Definition search_hit (result : val) (url : string) : Prop :=
  ∃ (d payload : list (string * val)) (success : val) (before after : list val) (entry : val),
    result = VDict d ∧
    dict_get "success" d = Some success ∧ truthy success = true ∧
    dict_get "result" d = Some (VDict payload) ∧
    dict_get "results" payload = Some (VList (before ++ entry :: after)) ∧
    Forall plain_entry before ∧
    pdf_entry entry url.

Section Chaining.
Context `{Runtime}.
Context {world : Type}.
Implicit Types (self : Orchestrator.orchestrator (world:=world)).
Implicit Types (results : list (string * val)) (w : world).

Lemma scan_links_prefix (items pdf_urls : list val) :
  ∃ more, Orchestrator.scan_links items pdf_urls = pdf_urls ++ more.
Proof.
  revert pdf_urls. induction items as [|item items IH]; intros pdf_urls; simpl.
  - exists []. by rewrite app_nil_r.
  - destruct (py_get item "link" (VStr "")) as [link|?]; simpl; [|exists []; by rewrite app_nil_r].
    destruct (py_lower link) as [low|?]; simpl; [|exists []; by rewrite app_nil_r].
    destruct (ends_with ".pdf" low).
    + destruct (IH (pdf_urls ++ [link])) as [more ->].
      exists (link :: more). by rewrite <- app_assoc.
    + apply IH.
Qed.

Lemma scan_links_plain (before rest pdf_urls : list val) :
  Forall plain_entry before →
  Orchestrator.scan_links (before ++ rest) pdf_urls = Orchestrator.scan_links rest pdf_urls.
Proof.
  induction 1 as [|entry before (d & link & -> & Hlink & Hend) _ IH]; simpl; [done|].
  destruct (dict_get "link" d) as [v|]; simpl in Hlink; subst; simpl.
  - by rewrite Hend.
  - injection Hlink as <-. apply IH.
Qed.

(** The first link the scan returns is the first [.pdf] link of the list. *)
Lemma extract_first_pdf_url (result : val) (url : string) :
  search_hit result url →
  ∃ more, Orchestrator._extract_pdf_urls_from_search result = VStr url :: more.
Proof.
  intros (d & payload & success & before & after & entry & -> & Hs & Ht & Hr & Hrs & Hplain
          & d' & -> & Hlink & Hend).
  unfold Orchestrator._extract_pdf_urls_from_search. simpl.
  rewrite Hs, Ht. unfold dict_mem. rewrite Hr. simpl. rewrite Hrs. simpl.
  rewrite scan_links_plain by done. simpl. rewrite Hlink. simpl. rewrite Hend.
  destruct (scan_links_prefix after [VStr url]) as [more ->]. by exists more.
Qed.

(** The turn for a search invocation that finds a document link: the
    search record, then the extraction record, and nothing else. *)
Lemma execute_one_search_hit self (query : string) results (params : val) w
    (web_search pdf_parser : Orchestrator.tool) (result pdf_result : val) (url : string)
    (w1 w2 : world) :
  dict_get "web_search" (Orchestrator.tools self) = Some web_search →
  dict_get "pdf_parser" (Orchestrator.tools self) = Some pdf_parser →
  Orchestrator.tool_execute web_search params (Orchestrator.context_of query results) w
    = (Ret result, w1) →
  search_hit result url →
  Orchestrator.tool_execute pdf_parser (VDict [("url", VStr url)])
    (VDict [("query", VStr query); ("source", VStr "search_result")]) w1
    = (Ret pdf_result, w2) →
  Orchestrator.execute_one self query results ("web_search", params) w
  = (results ++ [("web_search", result); ("pdf_parser", pdf_result)], w2).
Proof.
  intros Hws Hpdf Hsearch Hhit Hextract.
  unfold Orchestrator.execute_one, Orchestrator.call_tool. rewrite Hws, Hsearch.
  unfold Orchestrator.chain_pdf. simpl. rewrite Hpdf.
  destruct (extract_first_pdf_url result url Hhit) as [more Hurls].
  destruct Hhit as (d & payload & success & before & after & entry & -> & Hs & Ht & _).
  simpl. rewrite Hs, Ht, Hurls, Hextract. simpl. by rewrite <- app_assoc.
Qed.

(** When the extraction raises instead, the engine's capture takes its
    place, written under the name of the turn's own tool. *)
Lemma execute_one_search_hit_extraction_raises self (query : string) results (params : val) w
    (web_search pdf_parser : Orchestrator.tool) (result : val) (url : string) (e : exn)
    (w1 w2 : world) :
  dict_get "web_search" (Orchestrator.tools self) = Some web_search →
  dict_get "pdf_parser" (Orchestrator.tools self) = Some pdf_parser →
  Orchestrator.tool_execute web_search params (Orchestrator.context_of query results) w
    = (Ret result, w1) →
  search_hit result url →
  Orchestrator.tool_execute pdf_parser (VDict [("url", VStr url)])
    (VDict [("query", VStr query); ("source", VStr "search_result")]) w1
    = (Raise e, w2) →
  Orchestrator.execute_one self query results ("web_search", params) w
  = (results ++ [("web_search", result); ("web_search", Orchestrator.failure_record e)], w2).
Proof.
  intros Hws Hpdf Hsearch Hhit Hextract.
  unfold Orchestrator.execute_one, Orchestrator.call_tool. rewrite Hws, Hsearch.
  unfold Orchestrator.chain_pdf. simpl. rewrite Hpdf.
  destruct (extract_first_pdf_url result url Hhit) as [more Hurls].
  destruct Hhit as (d & payload & success & before & after & entry & -> & Hs & Ht & _).
  simpl. rewrite Hs, Ht, Hurls, Hextract. simpl. by rewrite <- app_assoc.
Qed.

(** C1, as amended (when web_search returns a successful result whose
    entries are mappings with text links up to the first link ending in
    .pdf, pdf_parser is registered and its invocation returns, the engine
    runs pdf_parser exactly once, on that first link, and puts its result
    right after the search result; one extraction per search result): the
    run over [before], the search invocation and [after] goes on, after the
    two records, from the state the single extraction left. *)
Theorem search_hit_chains_one_extraction self (query : string)
    (before after : list (string * val)) (params : val) w
    (web_search pdf_parser : Orchestrator.tool) (result pdf_result : val) (url : string)
    (w1 w2 : world) :
  let earlier := Orchestrator._execute_tools self before query w in
  dict_get "web_search" (Orchestrator.tools self) = Some web_search →
  dict_get "pdf_parser" (Orchestrator.tools self) = Some pdf_parser →
  Orchestrator.tool_execute web_search params
    (Orchestrator.context_of query earlier.1) earlier.2 = (Ret result, w1) →
  search_hit result url →
  Orchestrator.tool_execute pdf_parser (VDict [("url", VStr url)])
    (VDict [("query", VStr query); ("source", VStr "search_result")]) w1
    = (Ret pdf_result, w2) →
  Orchestrator._execute_tools self (before ++ ("web_search", params) :: after) query w
  = Orchestrator.execute_loop self query after
      (earlier.1 ++ [("web_search", result); ("pdf_parser", pdf_result)]) w2.
Proof.
  intros earlier Hws Hpdf Hsearch Hhit Hextract. unfold Orchestrator._execute_tools in *.
  rewrite execute_loop_app. fold earlier. cbn [Orchestrator.execute_loop].
  by rewrite (execute_one_search_hit self query earlier.1 params earlier.2
                web_search pdf_parser result pdf_result url w1 w2).
Qed.

End Chaining.

(** ** Tool selection and the conversation *)

(** A well-formed entry of the reply's [tools] list: a name and a
    parameter mapping. *)
Definition selection_item (s : string * list (string * val)) : val :=
  VDict [("name", VStr s.1); ("params", VDict s.2)].

Section Selection.
Context `{Runtime}.
Context {world : Type}.
Variable chat_create : Orchestrator.chat_request → world → res val * world.
Variable select_system_prompt response_system_prompt : string.
Implicit Types (self : Orchestrator.orchestrator (world:=world)).
Implicit Types (w : world).

Local Abbreviation _select_tools := (Orchestrator._select_tools chat_create select_system_prompt).
Local Abbreviation select_request := (Orchestrator.select_request select_system_prompt).
Local Abbreviation process_query :=
  (Orchestrator.process_query chat_create select_system_prompt response_system_prompt).

Definition names_registered self (selected_tools : list (string * val)) : Prop :=
  Forall (λ invocation, dict_mem invocation.1 (Orchestrator.tools self) = true) selected_tools.

Lemma select_one_registered self (query : string) (selected_tools out : list (string * val))
    (tool : val) :
  names_registered self selected_tools →
  Orchestrator.select_one self query selected_tools tool = Ret out →
  names_registered self out.
Proof.
  intros Hreg. unfold Orchestrator.select_one.
  destruct (py_get tool "name" VNone) as [tool_name|?]; simpl; [|done].
  destruct (py_get tool "params" (VDict [])) as [params|?]; simpl; [|done].
  destruct (Orchestrator.registered self tool_name) as [[n|]|?] eqn:Hknown; simpl; [| |done].
  - assert (Hn : dict_mem n (Orchestrator.tools self) = true).
    { unfold Orchestrator.registered in Hknown. destruct tool_name; try done.
      destruct (dict_mem s (Orchestrator.tools self)) eqn:Hm; [|done].
      by injection Hknown as <-. }
    destruct (if String.eqb n "web_search" then _ else _) as [params'|?]; simpl; [|done].
    intros [= <-]. apply Forall_app. split; [done|]. by constructor.
  - by intros [= <-].
Qed.

Lemma select_from_reply_registered self (query : string) (reply : res val)
    (out : list (string * val)) :
  Orchestrator.select_from_reply self query reply = Ret out → names_registered self out.
Proof.
  unfold Orchestrator.select_from_reply.
  destruct reply as [content|?]; simpl; [|done].
  destruct (Orchestrator.loads content) as [data|?]; simpl; [|done].
  destruct (py_get data "tools" (VList [])) as [listed|?]; simpl; [|done].
  destruct (py_iter listed) as [items|?]; simpl; [|done].
  apply (foldM_invariant (names_registered self)); [|constructor].
  intros b x b'. apply select_one_registered.
Qed.

Lemma fallback_selection_registered self (query : string) :
  names_registered self (Orchestrator.fallback_selection self query).
Proof.
  unfold Orchestrator.fallback_selection.
  destruct (dict_mem "web_search" (Orchestrator.tools self)) eqn:Hm; [|constructor].
  by constructor.
Qed.

(** What the loop keeps of a well-formed entry: nothing when the name is
    not registered; for web_search the query is filled in when absent. *)
Definition kept self (query : string) (s : string * list (string * val))
  : option (string * val) :=
  if dict_mem s.1 (Orchestrator.tools self) then
    Some (s.1,
          VDict (if String.eqb s.1 "web_search" && negb (dict_mem "query" s.2)
                 then dict_set "query" (VStr query) s.2
                 else s.2))
  else None.

Lemma select_one_well_formed self (query : string) (acc : list (string * val))
    (s : string * list (string * val)) :
  Orchestrator.select_one self query acc (selection_item s)
  = Ret (acc ++ option_list (kept self query s)).
Proof.
  destruct s as [n p]. unfold Orchestrator.select_one, kept. simpl.
  destruct (dict_mem n (Orchestrator.tools self)); simpl; [|by rewrite app_nil_r].
  destruct (String.eqb n "web_search"); simpl; [|done].
  by destruct (dict_mem "query" p).
Qed.

Lemma select_loop_well_formed self (query : string)
    (sels : list (string * list (string * val))) (acc : list (string * val)) :
  foldM (Orchestrator.select_one self query) acc (selection_item <$> sels)
  = Ret (acc ++ omap (kept self query) sels).
Proof.
  revert acc. induction sels as [|s sels IH]; intros acc.
  - simpl. by rewrite app_nil_r.
  - rewrite fmap_cons. cbn [foldM]. rewrite select_one_well_formed.
    cbn [mbind res_bind bind]. rewrite IH, <- app_assoc. f_equal. f_equal.
    cbn [omap list_omap]. by destruct (kept self query s).
Qed.

(** C5, as amended (every selection the adapter returns names a registered
    tool, the others being dropped; when the oracle call fails or its reply
    does not parse, the adapter returns the search tool with the raw query
    if it is registered and nothing otherwise; a reply that parses to a
    well-formed list is returned filtered and is not replaced by the
    fallback, even when nothing is left of it). *)
Theorem select_tools_registered_only_fallback_on_failure self (query : string) w :
  let reply := (chat_create (select_request self query) w).1 in
  let selected := (_select_tools self query w).1 in
  let default_selection :=
    if dict_mem "web_search" (Orchestrator.tools self)
    then [("web_search", VDict [("query", VStr query)])]
    else [] in
  names_registered self selected ∧
  (∀ e, reply = Raise e → selected = default_selection) ∧
  (∀ content e,
      reply = Ret content → Orchestrator.loads content = Raise e →
      selected = default_selection) ∧
  (∀ content d (sels : list (string * list (string * val))),
      reply = Ret content → Orchestrator.loads content = Ret (VDict d) →
      dict_get "tools" d = Some (VList (selection_item <$> sels)) →
      selected = omap (kept self query) sels).
Proof.
  intros reply selected default_selection. subst reply selected default_selection.
  unfold Orchestrator._select_tools.
  destruct (chat_create (select_request self query) w) as [reply w1]. simpl.
  split; [|split; [|split]].
  - destruct (Orchestrator.select_from_reply self query reply) as [out|?] eqn:Hsel; simpl.
    + by eapply select_from_reply_registered.
    + apply fallback_selection_registered.
  - by intros e ->.
  - intros content e -> Hload. unfold Orchestrator.select_from_reply. simpl.
    by rewrite Hload.
  - intros content d sels -> Hload Htools. unfold Orchestrator.select_from_reply. simpl.
    rewrite Hload. simpl. rewrite Htools. simpl.
    by rewrite select_loop_well_formed.
Qed.


End Selection.

(** ** Closed runs *)

(** In these runs the outside world is a counter: a search adds 1 to it, a
    document extraction adds 10, any other call adds 100. *)
Definition search_result (entries : list val) : val :=
  VDict [("tool", VStr "web_search"); ("success", VBool true);
         ("result", VDict [("query", VStr "annual report"); ("results", VList entries)])].

Definition fixed_search (entries : list val) : Orchestrator.tool (world:=nat) :=
  Orchestrator.RegisteredTool WebSearch.spec
    (λ params context calls, (Ret (search_result entries), (calls + 1)%nat)).

Definition extraction_of (params : val) : val :=
  VDict [("tool", VStr "pdf_parser"); ("success", VBool true);
         ("result", VDict [("source", params); ("pages", VList [])])].

Definition counting_pdf_parser : Orchestrator.tool (world:=nat) :=
  Orchestrator.RegisteredTool PdfParser.spec
    (λ params context calls, (Ret (extraction_of params), (calls + 10)%nat)).

(** A tool whose call times out: [asyncio.TimeoutError()] has an empty
    message. *)
Definition timing_out : Orchestrator.tool (world:=nat) :=
  Orchestrator.RegisteredTool (Base.Tool "fetch" "Fetches a page" [])
    (λ params context calls, (Raise (Exn "TimeoutError" ""), (calls + 100)%nat)).

Definition registry (entries : list val) : Orchestrator.orchestrator (world:=nat) :=
  Orchestrator.AgentOrchestrator
    [("web_search", fixed_search entries);
     ("pdf_parser", counting_pdf_parser);
     ("fetch", timing_out)]
    "conversation-1" [].

Definition plain_runtime : Runtime := canned_runtime (Ret VNone).

Definition two_documents : list val :=
  [VDict [("title", VStr "Home")];
   VDict [("title", VStr "Report 2023"); ("link", VStr "https://example.org/2023.PDF")];
   VDict [("title", VStr "Report 2022"); ("link", VStr "https://example.org/2022.pdf")]].

(** Two document links in one result set: one extraction, on the first,
    right after the search record; the counter shows one search and one
    extraction. *)
Lemma search_hit_chains_one_extraction_witness :
  Orchestrator._execute_tools (H:=plain_runtime) (registry two_documents)
    ([] ++ [("web_search", VDict [("query", VStr "annual report")])])
    "annual report" 0%nat
  = ([("web_search", search_result two_documents);
      ("pdf_parser", extraction_of (VDict [("url", VStr "https://example.org/2023.PDF")]))],
     11%nat).
Proof.
  apply (search_hit_chains_one_extraction (H:=plain_runtime) (registry two_documents)
           "annual report" [] [] (VDict [("query", VStr "annual report")]) 0%nat
           (fixed_search two_documents) counting_pdf_parser
           (search_result two_documents)
           (extraction_of (VDict [("url", VStr "https://example.org/2023.PDF")]))
           "https://example.org/2023.PDF" 1%nat 11%nat);
    try reflexivity.
  exists [("tool", VStr "web_search"); ("success", VBool true);
          ("result", VDict [("query", VStr "annual report"); ("results", VList two_documents)])],
         [("query", VStr "annual report"); ("results", VList two_documents)],
         (VBool true),
         [VDict [("title", VStr "Home")]],
         [VDict [("title", VStr "Report 2022"); ("link", VStr "https://example.org/2022.pdf")]],
         (VDict [("title", VStr "Report 2023"); ("link", VStr "https://example.org/2023.PDF")]).
  repeat split; try reflexivity.
  - constructor; [|constructor]. by exists [("title", VStr "Home")], "".
  - by exists [("title", VStr "Report 2023"); ("link", VStr "https://example.org/2023.PDF")].
Defined.

Definition null_link_first : list val :=
  [VDict [("title", VStr "Untitled"); ("link", VNone)];
   VDict [("title", VStr "Report 2023"); ("link", VStr "https://example.org/2023.pdf")]].

(** C1 as stated fails: the result is successful and its second entry has a
    link ending in .pdf, pdf_parser is registered, yet the run holds the
    search record alone and the counter shows no extraction: the entry
    before it has a null link, on which the scan stops. *)
Lemma search_hit_behind_null_link_not_chained :
  pdf_entry (VDict [("title", VStr "Report 2023"); ("link", VStr "https://example.org/2023.pdf")])
    "https://example.org/2023.pdf" ∧
  dict_mem "pdf_parser" (Orchestrator.tools (registry null_link_first)) = true ∧
  Orchestrator._execute_tools (H:=plain_runtime) (registry null_link_first)
    [("web_search", VDict [("query", VStr "annual report")])] "annual report" 0%nat
  = ([("web_search", search_result null_link_first)], 1%nat).
Proof.
  split; [|split; reflexivity].
  by exists [("title", VStr "Report 2023"); ("link", VStr "https://example.org/2023.pdf")].
Qed.

(** A call that raises in the middle of a run: its record, then the
    search still runs and chains as usual. *)
Lemma failed_invocation_recorded_run_continues_witness :
  ∃ later : list (string * val),
    Orchestrator._execute_tools (H:=plain_runtime) (registry two_documents)
      ([] ++ ("fetch", VDict []) :: [("web_search", VDict [("query", VStr "annual report")])])
      "annual report" 0%nat
    = Orchestrator.execute_loop (H:=plain_runtime) (registry two_documents) "annual report"
        [("web_search", VDict [("query", VStr "annual report")])]
        ([] ++ [("fetch", Orchestrator.failure_record (Exn "TimeoutError" ""))]) 100%nat ∧
    (Orchestrator._execute_tools (H:=plain_runtime) (registry two_documents)
       ([] ++ ("fetch", VDict []) :: [("web_search", VDict [("query", VStr "annual report")])])
       "annual report" 0%nat).1
    = [] ++ ("fetch", VDict [("error", VStr ""); ("success", VBool false)]) :: later ∧
    [("web_search", VDict [("query", VStr "annual report")])].*1 `sublist_of` later.*1.
Proof.
  apply (failed_invocation_recorded_run_continues (H:=plain_runtime) (registry two_documents)
           "annual report" [] [("web_search", VDict [("query", VStr "annual report")])]
           "fetch" (VDict []) 0%nat (Exn "TimeoutError" "") 100%nat).
  reflexivity.
Defined.

(** C6 as stated fails: the call raises, and the record the engine writes
    for it has the empty text as its diagnostic. *)
Lemma failed_invocation_with_empty_diagnostic :
  Orchestrator.call_tool (H:=plain_runtime) (registry []) "fetch" (VDict [])
    (Orchestrator.context_of "annual report" []) 0%nat
  = (Raise (Exn "TimeoutError" ""), 100%nat) ∧
  Orchestrator._execute_tools (H:=plain_runtime) (registry []) [("fetch", VDict [])]
    "annual report" 0%nat
  = ([("fetch", VDict [("error", VStr ""); ("success", VBool false)])], 100%nat).
Proof. split; reflexivity. Qed.

(** A reply that parses to one selection, of a tool nobody registered. *)
Definition unknown_tool_runtime : Runtime :=
  canned_runtime (Ret (VDict [("tools", VList [selection_item ("calculator", [])]);
                              ("reasoning", VStr "arithmetic")])).

Definition answering_chat (request : Orchestrator.chat_request) (calls : nat)
  : res val * nat :=
  (Ret (VStr "(the reply text)"), (calls + 1000)%nat).

(** C5 as stated fails: the reply parses, its only selection is dropped,
    the selection is empty, search is registered, and the adapter returns
    the empty selection, not the fallback. *)
Lemma empty_valid_selection_without_fallback :
  dict_mem "web_search" (Orchestrator.tools (registry [])) = true ∧
  Orchestrator.select_from_reply (H:=unknown_tool_runtime) (registry []) "2+2?"
    (Ret (VStr "(the reply text)")) = Ret [] ∧
  Orchestrator._select_tools (H:=unknown_tool_runtime) answering_chat "" (registry []) "2+2?"
    0%nat
  = ([], 1000%nat) ∧
  Orchestrator.fallback_selection (registry []) "2+2?"
  = [("web_search", VDict [("query", VStr "2+2?")])].
Proof. repeat split; reflexivity. Qed.

(** A whole query against the same chat service: the two messages. *)
Lemma process_query_example :
  Orchestrator.messages
    (Orchestrator.process_query (H:=unknown_tool_runtime) answering_chat "" ""
       (registry []) "2+2?" 0%nat).1.1
  = [Orchestrator.Message "user" (VStr "2+2?");
     Orchestrator.Message "assistant" (VStr "(the reply text)")].
Proof. reflexivity. Qed.

(* ===================================================================== *)
(** * Further properties of the modelled code *)
(* ===================================================================== *)

(** ** validate_params: what an empty error list means *)



Section Conformance.
Context `{Runtime}.








End Conformance.

(** ** code_execute: what the scan and the import hook let through *)

Lemma fmap_filter_nil {A B} (f : A → B) (h : A → bool) (l : list A) :
  f <$> List.filter h l = [] ↔ ∀ x, x ∈ l → h x = false.
Proof.
  induction l as [|x l IH]; simpl.
  - split; [|done]. intros _ ? Hin. inversion Hin.
  - destruct (h x) eqn:Hx; simpl.
    + split; [done|]. intros Hall. specialize (Hall x (list_elem_of_here _ _)). congruence.
    + rewrite IH. split.
      * intros Hall y Hy. apply elem_of_cons in Hy as [->|Hy]; [done | by apply Hall].
      * intros Hall y Hy. apply Hall. by right.
Qed.

Lemma forallb_false_witness {A} (f : A → bool) (l : list A) :
  forallb f l = false → ∃ x, x ∈ l ∧ f x = false.
Proof.
  induction l as [|x l IH]; simpl; [done|].
  destruct (f x) eqn:Hx; simpl.
  - intros Hl. destruct (IH Hl) as (y & Hy & Hfy). exists y. split; [by right | done].
  - intros _. exists x. split; [by left | done].
Qed.

Lemma Ret_inj {A} (a b : A) : Ret a = Ret b → a = b.
Proof. by intros [= ->]. Qed.

(** X12: The scan passes a script text exactly when the text contains, for no
    blocked module [m], any of [import m], [from m] and [m.], and none of
    [eval(], [exec(] and [__import__(]; the test is on substrings, so a
    name that merely ends in a blocked module's name before a dot (as
    [pos.x] does for [os]) is refused as well. *)
Theorem security_scan_passes_iff (code : string) :
  CodeExecute._check_code_security (VStr code) = Ret [] ↔
  (∀ m, m ∈ CodeExecute.blocked_modules →
        contains ("import " +:+ m) code = false ∧
        contains ("from " +:+ m) code = false ∧
        contains (m +:+ ".") code = false) ∧
  contains "eval(" code = false ∧
  contains "exec(" code = false ∧
  contains "__import__(" code = false.
Proof.
  rewrite check_code_security_of_text. split.
  - intros Hnil. apply Ret_inj in Hnil. apply app_eq_nil in Hnil as [Himp Hnil].
    apply app_eq_nil in Hnil as [Hfun Hattr].
    rewrite fmap_filter_nil in Himp, Hfun, Hattr. split; [|repeat split].
    + intros m Hm. apply elem_of_elements in Hm.
      specialize (Himp m Hm). specialize (Hattr m Hm). simpl in Himp.
      apply orb_false_iff in Himp as [??]. clear Hm. repeat split; assumption.
    + apply Hfun. by left.
    + apply Hfun. right. by left.
    + apply Hfun. right. right. by left.
  - intros (Hmod & Heval & Hexec & Himport). f_equal.
    apply app_nil. split; [|apply app_nil; split]; apply fmap_filter_nil.
    + intros m Hm. apply elem_of_elements in Hm.
      destruct (Hmod m Hm) as (-> & -> & _). reflexivity.
    + intros f Hf. clear Hmod.
      repeat (apply elem_of_cons in Hf as [->|Hf]; [assumption|]). inversion Hf.
    + intros m Hm. apply elem_of_elements in Hm.
      destruct (Hmod m Hm) as (_ & _ & Hdot). exact Hdot.
Qed.

Lemma pos_dot_x_is_refused :
  ∃ issues, CodeExecute._check_code_security (VStr "pos.x = 1") = Ret issues ∧ issues ≠ [].
Proof.
  destruct (check_code_security_flags "pos.x = 1") as (issues & Hscan & Hmod & _).
  exists issues. split; [exact Hscan|].
  apply (Hmod "os"); [unfold CodeExecute.blocked_modules; set_solver|].
  right. right. reflexivity.
Qed.

(** X13: The import hook lets a module name through exactly when the name is
    not blocked and is an allowed module or lies under one ([m.] followed
    by anything); so [numpy.linalg] passes and [os.path], which is in
    neither set, does not. *)
Theorem secure_import_allows_iff (name : string) :
  CodeExecute.secure_import name = None ↔
  (name ∉ CodeExecute.blocked_modules) ∧
  (name ∈ CodeExecute.allowed_modules ∨
   ∃ m, m ∈ CodeExecute.allowed_modules ∧ starts_with (m +:+ ".") name = true).
Proof.
  unfold CodeExecute.secure_import.
  generalize CodeExecute.blocked_modules CodeExecute.allowed_modules.
  intros blocked allowed.
  destruct (bool_decide_reflect (name ∈ blocked)) as [Hb|Hb].
  { split; [discriminate | intros [Hn _]; exact (False_ind _ (Hn Hb))]. }
  destruct (bool_decide_reflect (name ∉ allowed)) as [Ha|Ha]; cbn [andb].
  - destruct (forallb _ _) eqn:Hall.
    + split; [discriminate|].
      intros [_ [Hin|(m & Hm & Hpre)]]; [exact (False_ind _ (Ha Hin))|].
      rewrite forallb_forall in Hall.
      assert (negb (starts_with (m +:+ ".") name) = true) as Hneg.
      { apply Hall, list_elem_of_In, elem_of_elements. exact Hm. }
      rewrite Hpre in Hneg. discriminate Hneg.
    + split; [intros _ | reflexivity]. split; [exact Hb|]. right.
      apply forallb_false_witness in Hall as (m & Hin & Hm).
      exists m. split; [apply elem_of_elements; exact Hin|].
      destruct (starts_with (m +:+ ".") name); [reflexivity | discriminate Hm].
  - split; [intros _ | reflexivity]. split; [exact Hb|]. left.
    apply dec_stable. exact Ha.
Qed.

Lemma secure_import_examples :
  CodeExecute.secure_import "numpy.linalg" = None ∧
  CodeExecute.secure_import "os.path" = Some (Exn "ImportError" "Module os.path is not allowed") ∧
  CodeExecute.secure_import "os" = Some (Exn "ImportError" "Import of os is not allowed").
Proof. repeat split; by vm_compute. Qed.

(** ** _extract_pdf_urls_from_search: what the scan returns *)

(** The entries the scan can read: the list under [result["results"]]. *)
Definition listed_entries (result : val) : list val :=
  match result with
  | VDict d =>
      match dict_get "result" d with
      | Some (VDict payload) =>
          match dict_get "results" payload with
          | Some (VList entries) => entries
          | _ => []
          end
      | _ => []
      end
  | _ => []
  end.

(** An entry with a usable link field: a mapping whose link is absent or
    is text. *)
Definition well_formed_entry (entry : val) : Prop :=
  ∃ d : list (string * val),
    entry = VDict d ∧
    (dict_get "link" d = None ∨ ∃ link : string, dict_get "link" d = Some (VStr link)).

(** The link of an entry when it is text ending in [.pdf]. *)
Definition pdf_link (entry : val) : option val :=
  match entry with
  | VDict d =>
      match dict_get "link" d with
      | Some (VStr link) => if ends_with ".pdf" (lower link) then Some (VStr link) else None
      | _ => None
      end
  | _ => None
  end.

Section Extraction.
Context `{Runtime}.

Lemma scan_links_elem_of (items pdf_urls : list val) (u : val) :
  u ∈ Orchestrator.scan_links items pdf_urls →
  u ∈ pdf_urls ∨
  ∃ (link : string) (e : list (string * val)),
    u = VStr link ∧ ends_with ".pdf" (lower link) = true ∧
    VDict e ∈ items ∧ dict_get "link" e = Some (VStr link).
Proof.
  revert pdf_urls. induction items as [|item items IH]; intros pdf_urls; simpl; [by left|].
  destruct item as [| | | | |?|e]; simpl; try by left.
  destruct (dict_get "link" e) as [[| | | |link| |]|] eqn:Hlink; simpl; try by left.
  - destruct (ends_with ".pdf" (lower link)) eqn:Hend.
    + intros Hu. destruct (IH _ Hu) as [Hin|(l & e' & ? & ? & ? & ?)].
      * apply elem_of_app in Hin as [?|Hin]; [by left|].
        apply list_elem_of_singleton in Hin as ->. right.
        exists link, e. repeat split; [done|by left|done].
      * right. exists l, e'. repeat split; [done|done|by right|done].
    + intros Hu. destruct (IH _ Hu) as [?|(l & e' & ? & ? & ? & ?)]; [by left|].
      right. exists l, e'. repeat split; [done|done|by right|done].
  - intros Hu. destruct (IH _ Hu) as [?|(l & e' & ? & ? & ? & ?)]; [by left|].
    right. exists l, e'. repeat split; [done|done|by right|done].
Qed.

Lemma scan_links_stops_at_text (s : string) (items : list val) (pdf_urls : list val) :
  Orchestrator.scan_links (VStr s :: items) pdf_urls = pdf_urls.
Proof. reflexivity. Qed.

(** X18: Every link the scan returns is text that ends in [.pdf], whatever the
    case, and is the link field of a mapping listed under
    [result["results"]] of a result whose [success] is true. *)
Theorem extracted_urls_are_listed_pdf_links (search_result u : val) :
  u ∈ Orchestrator._extract_pdf_urls_from_search search_result →
  ∃ (link : string) (e : list (string * val)),
    u = VStr link ∧
    ends_with ".pdf" (lower link) = true ∧
    VDict e ∈ listed_entries search_result ∧
    dict_get "link" e = Some (VStr link) ∧
    (∃ success, py_get search_result "success" VNone = Ret success ∧ truthy success = true).
Proof.
  unfold Orchestrator._extract_pdf_urls_from_search, listed_entries.
  destruct search_result as [| | | | | |d]; simpl; try by intros ?%elem_of_nil.
  destruct (dict_get "success" d) as [success|] eqn:Hsuccess; simpl;
    [|by intros ?%elem_of_nil].
  destruct (truthy success) eqn:Hs; simpl; [|by intros ?%elem_of_nil].
  unfold dict_mem.
  destruct (dict_get "result" d) as [payload|]; simpl; [|by intros ?%elem_of_nil].
  destruct payload as [| | | | | |payload]; simpl; try by intros ?%elem_of_nil.
  destruct (dict_get "results" payload) as [[| | | |s|entries|keys]|]; simpl;
    try by intros ?%elem_of_nil.
  - destruct s as [|c s]; simpl; by intros ?%elem_of_nil.
  - intros Hu. apply scan_links_elem_of in Hu as [?%elem_of_nil|(link & e & ? & ? & ? & ?)];
      [done|].
    exists link, e. repeat split; try done. by eexists.
  - destruct keys as [|[k v] keys]; simpl; by intros ?%elem_of_nil.
Qed.

Lemma scan_links_well_formed (entries pdf_urls : list val) :
  Forall well_formed_entry entries →
  Orchestrator.scan_links entries pdf_urls = pdf_urls ++ omap pdf_link entries.
Proof.
  intros Hwf. revert pdf_urls.
  induction Hwf as [|entry entries (d & -> & Hlink) _ IH]; intros pdf_urls; simpl.
  - by rewrite app_nil_r.
  - destruct Hlink as [->|[link ->]]; simpl; [apply IH|].
    destruct (ends_with ".pdf" (lower link)); [|apply IH].
    rewrite IH. by rewrite <- app_assoc.
Qed.

(** X19: On a successful result whose listed entries all have a usable link
    field, the scan returns exactly the links that end in [.pdf], whatever
    the case, in the order of the entries. *)
Theorem extract_pdf_urls_of_well_formed (d payload : list (string * val)) (success : val)
    (entries : list val) :
  dict_get "success" d = Some success → truthy success = true →
  dict_get "result" d = Some (VDict payload) →
  dict_get "results" payload = Some (VList entries) →
  Forall well_formed_entry entries →
  Orchestrator._extract_pdf_urls_from_search (VDict d) = omap pdf_link entries.
Proof.
  intros Hs Ht Hr Hrs Hwf. unfold Orchestrator._extract_pdf_urls_from_search. simpl.
  rewrite Hs. simpl. rewrite Ht. unfold dict_mem. rewrite Hr. simpl. rewrite Hrs. simpl.
  by rewrite scan_links_well_formed.
Qed.

(** A result whose [success] is missing or false gives no link. *)
Lemma extract_pdf_urls_of_failure (d : list (string * val)) :
  truthy (default VNone (dict_get "success" d)) = false →
  Orchestrator._extract_pdf_urls_from_search (VDict d) = [].
Proof.
  intros Hs. unfold Orchestrator._extract_pdf_urls_from_search. simpl.
  by destruct (dict_get "success" d); simpl in *; [rewrite Hs|].
Qed.

End Extraction.

(** ** The engine: how many records a run has, and under which names *)

Section Runs.
Context `{Runtime}.
Context {world : Type}.
Implicit Types (self : Orchestrator.orchestrator (world:=world)).
Implicit Types (results : list (string * val)) (w : world).

(** The number of search invocations in a selection. *)
Definition searches (selected_tools : list (string * val)) : nat :=
  length (filter (λ invocation, invocation.1 = "web_search") selected_tools).

Lemma chain_pdf_length self (query tool_name : string) (result : val) w
    (chained : list (string * val)) (w' : world) :
  Orchestrator.chain_pdf self query tool_name result w = (Ret chained, w') →
  (length chained ≤ if String.eqb tool_name "web_search" then 1 else 0)%nat.
Proof.
  unfold Orchestrator.chain_pdf.
  destruct (String.eqb tool_name "web_search"); [|by intros [= <- _]].
  destruct (dict_get "pdf_parser" (Orchestrator.tools self)) as [pdf|];
    [|intros [= <- _]; simpl; lia].
  destruct (py_get result "success" (VBool false)) as [success|?]; [|done].
  destruct (truthy success); [|intros [= <- _]; simpl; lia].
  destruct (Orchestrator._extract_pdf_urls_from_search result) as [|pdf_url ?];
    [intros [= <- _]; simpl; lia|].
  destruct (Orchestrator.tool_execute pdf _ _ w) as [[pdf_result|?] w1]; simpl; [|done].
  by intros [= <- _].
Qed.

Lemma execute_one_length self (query : string) results (invocation : string * val) w :
  (length results + 1
   ≤ length (Orchestrator.execute_one self query results invocation w).1
   ≤ length results + 1 + (if String.eqb invocation.1 "web_search" then 1 else 0))%nat.
Proof.
  destruct invocation as [tool_name params]. unfold Orchestrator.execute_one.
  destruct (Orchestrator.call_tool self tool_name params
              (Orchestrator.context_of query results) w) as [[result|e] w1]; simpl.
  - destruct (Orchestrator.chain_pdf self query tool_name result w1)
      as [[chained|e] w2] eqn:Hchain; simpl.
    + apply chain_pdf_length in Hchain. rewrite !length_app. simpl. lia.
    + assert (String.eqb tool_name "web_search" = true) as ->.
      { unfold Orchestrator.chain_pdf in Hchain.
        by destruct (String.eqb tool_name "web_search"). }
      rewrite !length_app. simpl. lia.
  - rewrite length_app. simpl. lia.
Qed.

Lemma execute_loop_length self (query : string) (selected_tools : list (string * val))
    results w :
  (length results + length selected_tools
   ≤ length (Orchestrator.execute_loop self query selected_tools results w).1
   ≤ length results + length selected_tools + searches selected_tools)%nat.
Proof.
  revert results w.
  induction selected_tools as [|invocation rest IH]; intros results w; simpl.
  - unfold searches. simpl. lia.
  - pose proof (execute_one_length self query results invocation w) as Hone.
    destruct (Orchestrator.execute_one self query results invocation w) as [results1 w1].
    simpl in Hone. specialize (IH results1 w1).
    unfold searches in *. rewrite filter_cons.
    destruct (String.eqb_spec invocation.1 "web_search") as [Heq|Hne].
    + rewrite decide_True by done. simpl. lia.
    + rewrite decide_False by done. lia.
Qed.

(** X21: A run has at least one record for every selected invocation and at
    most one more for every search invocation among them: a search result
    set starts at most one document extraction, and no other tool starts
    any. *)
Theorem execute_tools_record_count self (selected_tools : list (string * val))
    (query : string) w :
  (length selected_tools
   ≤ length (Orchestrator._execute_tools self selected_tools query w).1
   ≤ length selected_tools + searches selected_tools)%nat.
Proof.
  unfold Orchestrator._execute_tools.
  pose proof (execute_loop_length self query selected_tools [] w) as Hlen.
  simpl in Hlen. lia.
Qed.

(** No search result of this registry starts an extraction: whatever the
    tool registered as web_search returns, the chaining step adds nothing. *)
Definition never_chains self : Prop :=
  ∀ (web_search : Orchestrator.tool) (query : string) (params context result : val)
    (w w' : world),
    dict_get "web_search" (Orchestrator.tools self) = Some web_search →
    Orchestrator.tool_execute web_search params context w = (Ret result, w') →
    Orchestrator.chain_pdf self query "web_search" result w' = (Ret [], w').

Lemma execute_one_unchained self (query : string) results (invocation : string * val) w :
  never_chains self →
  ∃ record : val,
    (Orchestrator.execute_one self query results invocation w).1
    = results ++ [(invocation.1, record)].
Proof.
  intros Hnever. destruct invocation as [tool_name params]. unfold Orchestrator.execute_one.
  destruct (Orchestrator.call_tool self tool_name params
              (Orchestrator.context_of query results) w) as [[result|e] w1] eqn:Hcall; simpl;
    [|by eexists].
  destruct (String.eqb_spec tool_name "web_search") as [->|Hne].
  - unfold Orchestrator.call_tool in Hcall.
    destruct (dict_get "web_search" (Orchestrator.tools self)) as [tool|] eqn:Htool; [|done].
    rewrite (Hnever tool query params _ result w w1 Htool Hcall). simpl.
    rewrite app_nil_r. by eexists.
  - unfold Orchestrator.chain_pdf.
    apply String.eqb_neq in Hne. rewrite Hne. simpl. rewrite app_nil_r. by eexists.
Qed.

Lemma execute_loop_unchained self (query : string) (selected_tools : list (string * val))
    results w :
  never_chains self →
  (Orchestrator.execute_loop self query selected_tools results w).1.*1
  = results.*1 ++ selected_tools.*1.
Proof.
  intros Hnever. revert results w.
  induction selected_tools as [|invocation rest IH]; intros results w; simpl.
  - by rewrite app_nil_r.
  - destruct (execute_one_unchained self query results invocation w Hnever) as [record Hone].
    destruct (Orchestrator.execute_one self query results invocation w) as [results1 w1].
    simpl in Hone. subst results1. rewrite IH, fmap_app. simpl. by rewrite <- app_assoc.
Qed.

(** X22: In a registry without pdf_parser a run has exactly one record for each
    selected invocation, under its name and in the selected order. *)
Theorem execute_tools_without_pdf_parser self (selected_tools : list (string * val))
    (query : string) w :
  dict_get "pdf_parser" (Orchestrator.tools self) = None →
  (Orchestrator._execute_tools self selected_tools query w).1.*1 = selected_tools.*1.
Proof.
  intros Hpdf. unfold Orchestrator._execute_tools.
  rewrite execute_loop_unchained; [done|].
  intros web_search query' params context result w0 w' _ _.
  unfold Orchestrator.chain_pdf. simpl. by rewrite Hpdf.
Qed.

End Runs.

(** ** The selection and the returned dict of process_query *)

Lemma dict_get_set {V} (t k : string) (v : V) (d : list (string * V)) :
  dict_get t (dict_set k v d) = if String.eqb t k then Some v else dict_get t d.
Proof.
  induction d as [|[k' v'] d IH]; simpl; [done|].
  destruct (String.eqb_spec k k') as [->|Hk]; simpl.
  - by destruct (String.eqb t k').
  - rewrite IH. destruct (String.eqb_spec t k') as [->|?]; [|done].
    apply String.eqb_neq in Hk. rewrite String.eqb_sym in Hk. by rewrite Hk.
Qed.

(** The dict comprehension [{t: r for t, r in tool_results}]: a name maps
    to the last result recorded under it. *)
Lemma results_by_name_lookup (t : string) (tool_results d : list (string * val)) :
  dict_get t (foldl (λ d '(t, r), dict_set t r d) d tool_results)
  = match last (filter (λ p, p.1 = t) tool_results).*2 with
    | Some r => Some r
    | None => dict_get t d
    end.
Proof.
  revert d. induction tool_results as [|[name r] rest IH]; intros d; simpl; [done|].
  rewrite IH, filter_cons. simpl. rewrite dict_get_set.
  destruct (decide (name = t)) as [->|Hne].
  - rewrite String.eqb_refl, fmap_cons, last_cons. simpl.
    by destruct (last (filter (λ p, p.1 = t) rest).*2).
  - destruct (String.eqb_spec t name) as [->|_]; done.
Qed.

Section Answer.
Context `{Runtime}.
Context {world : Type}.
Variable chat_create : Orchestrator.chat_request → world → res val * world.
Variable select_system_prompt response_system_prompt : string.
Implicit Types (self : Orchestrator.orchestrator (world:=world)).
Implicit Types (w : world).

Local Abbreviation _select_tools := (Orchestrator._select_tools chat_create select_system_prompt).
Local Abbreviation process_query :=
  (Orchestrator.process_query chat_create select_system_prompt response_system_prompt).




Lemma select_tools_names_registered self (query : string) w :
  names_registered self (_select_tools self query w).1.
Proof.
  unfold Orchestrator._select_tools.
  destruct (chat_create _ w) as [reply w1].
  destruct (Orchestrator.select_from_reply self query reply) as [out|?] eqn:Hsel; simpl.
  - by eapply select_from_reply_registered.
  - apply fallback_selection_registered.
Qed.

(** The stages of process_query, named: the orchestrator after the user
    message, the selection, and the run. *)
Definition asked self (query : string) : Orchestrator.orchestrator (world:=world) :=
  Orchestrator.AgentOrchestrator (Orchestrator.tools self) (Orchestrator.conversation_id self)
    (Orchestrator.messages self ++ [Orchestrator.Message "user" (VStr query)]).

Definition selection_of self (query : string) w : list (string * val) * world :=
  _select_tools (asked self query) query w.

Definition run_of self (query : string) w : list (string * val) * world :=
  Orchestrator._execute_tools (asked self query) (selection_of self query w).1 query
    (selection_of self query w).2.

Lemma process_query_stages self (query : string) w :
  Orchestrator.qr_tools_used (process_query self query w).1.2 = (selection_of self query w).1.*1 ∧
  Orchestrator.qr_tool_results (process_query self query w).1.2
  = foldl (λ d '(t, r), dict_set t r d) [] (run_of self query w).1.
Proof.
  unfold Orchestrator.process_query, run_of, selection_of, asked.
  destruct (Orchestrator._select_tools _ _ _ _ _) as [selected_tools w1]. simpl.
  destruct (Orchestrator._execute_tools _ _ _ _) as [tool_results w2].
  by destruct (Orchestrator._create_response _ _ _ _ _ _) as [response w3].
Qed.

(** X23: In the dict process_query returns, [tool_results] maps a tool name to
    the last result the run recorded under that name, and has no entry for
    a name the run recorded nothing under: earlier results of a tool that
    ran more than once are not in it. *)
Theorem process_query_tool_results_keep_last self (query : string) w (t : string) :
  dict_get t (Orchestrator.qr_tool_results (process_query self query w).1.2)
  = last (filter (λ p, p.1 = t) (run_of self query w).1).*2.
Proof.
  destruct (process_query_stages self query w) as [_ ->].
  rewrite results_by_name_lookup. by destruct (last _).
Qed.

(** X24: Every name in [tools_used] is a registered tool and has an entry in
    [tool_results]. *)
Theorem process_query_tools_used_have_results self (query : string) w (t : string) :
  t ∈ Orchestrator.qr_tools_used (process_query self query w).1.2 →
  dict_mem t (Orchestrator.tools self) = true ∧
  is_Some (dict_get t (Orchestrator.qr_tool_results (process_query self query w).1.2)).
Proof.
  destruct (process_query_stages self query w) as [-> ->].
  rewrite results_by_name_lookup. intros Hused. split.
  - pose proof (select_tools_names_registered (asked self query) query w) as Hreg.
    apply list_elem_of_fmap in Hused as ([n p] & -> & Hin).
    unfold names_registered in Hreg. rewrite Forall_forall in Hreg.
    by apply (Hreg (n, p)).
  - unfold run_of, Orchestrator._execute_tools.
    destruct (execute_loop_appends (asked self query) query (selection_of self query w).1 []
                (selection_of self query w).2) as (added & -> & Hsub & _).
    simpl.
    assert (is_Some (last (filter (λ p : string * val, p.1 = t) added).*2)) as [r0 ->];
      [|by eexists].
    apply last_is_Some.
    assert (t ∈ added.*1) as Hin
      by (eapply elem_of_submseteq; [exact Hused | by apply sublist_submseteq]).
    apply list_elem_of_fmap in Hin as ([n r] & -> & Hin). simpl.
    intros Hnil.
    assert ((n, r) ∈ filter (λ p : string * val, p.1 = n) added) as Hf
      by by apply list_elem_of_filter.
    apply (list_elem_of_fmap_2 snd) in Hf. rewrite Hnil in Hf. inversion Hf.
Qed.

End Answer.

(** ** validate_params on parameters of any shape *)

Section AnyParams.
Context `{Runtime}.

Lemma check_required_of_dict parameters (d : list (string * val)) (acc : list string) :
  foldM (ToolCall.check_required (VDict d)) acc parameters
  = Ret (acc ++ Base.missing_errors parameters d).
Proof.
  revert acc. induction parameters as [|[param_name spec] ps IH]; intros acc; simpl.
  - by rewrite app_nil_r.
  - destruct (Base.ps_required spec); simpl.
    + destruct (dict_mem param_name d); simpl; rewrite IH; [done|].
      by rewrite <- app_assoc.
    + apply IH.
Qed.

(** On a mapping the two agree. *)
Lemma validate_params_of_dict parameters (d : list (string * val)) :
  ToolCall.validate_params parameters (VDict d) = Base.validate_params parameters d.
Proof.
  unfold ToolCall.validate_params. by rewrite check_required_of_dict.
Qed.

(** X4: Parameters that are not a mapping never pass validation: it raises, at
    the membership test of the first loop or at [params.items()]. *)
Theorem validate_params_needs_mapping parameters (params : val) (errors : list string) :
  ToolCall.validate_params parameters params = Ret errors →
  ∃ d, params = VDict d.
Proof.
  unfold ToolCall.validate_params.
  destruct (foldM _ _ _); simpl; [|done].
  destruct params; try done. by eexists.
Qed.

End AnyParams.

Lemma validate_params_needs_mapping_witness :
  ∃ d, VDict [("query", VStr "rocq")] = VDict d.
Proof.
  apply (validate_params_needs_mapping (H:=plain_runtime) (Base.parameters WebSearch.spec)
           (VDict [("query", VStr "rocq")]) []).
  reflexivity.
Defined.

(** ** web_search: what execute returns *)

Section ShippedSearch.
Context `{Runtime}.
Context {world : Type}.
Variable api_key : option string.
Variable http_get :
  string → list (string * val) → world → res WebSearchTool.response * world.

Local Abbreviation execute := (WebSearchTool.execute api_key http_get).

(** [execute] asks the instance for [format_results]; the class has
    [format_result]. *)
Lemma getattr_format_results :
  WebSearchTool.getattr_formatter "format_results"
  = Raise (AttributeError "'WebSearchTool' object has no attribute 'format_results'").
Proof. reflexivity. Qed.

Lemma web_search_execute_fails (params context : val) (w w' : world)
    (result : val) :
  execute params context w = (Ret result, w') →
  ∃ diagnostic : string,
    result = VDict [("tool", VStr "web_search"); ("success", VBool false);
                    ("result", VStr diagnostic)].
Proof.
  unfold WebSearchTool.execute.
  destruct (ToolCall.validate_params _ params) as [[|error errors]|?]; [| |done].
  - destruct (Orchestrator.py_getitem params "query") as [query|?]; simpl; [|done].
    destruct (py_get params "num_results" (VInt 5)) as [num_results|?]; simpl; [|done].
    destruct (WebSearchTool.search_serapi api_key http_get query num_results w)
      as [[results|?] w1]; simpl; intros [= <- _]; by eexists.
  - intros [= <- _]. by eexists.
Qed.

(** X16: Whatever web_search's execute returns is a failed result: validation
    errors, the failure of the search, or, when the search went through,
    the failed lookup of [format_results]. *)
Theorem web_search_execute_never_succeeds (params context : val) (w w' : world)
    (result : val) :
  execute params context w = (Ret result, w') →
  ∃ diagnostic : string,
    result = VDict [("tool", VStr "web_search"); ("success", VBool false);
                    ("result", VStr diagnostic)].
Proof. apply web_search_execute_fails. Qed.

(** When the request to the search service goes through and the reply lists
    no organic results, the result is still a failure: the message of the
    failed attribute lookup. *)
Lemma web_search_execute_after_search (key : string) (d : list (string * val)) (query : val)
    (context : val) (w w1 : world) (reply : WebSearchTool.response) (data : val) :
  api_key = Some key → key ≠ "" →
  Base.validate_params (Base.parameters WebSearch.spec) d = Ret [] →
  dict_get "query" d = Some query →
  http_get "https://serpapi.com/search"
    [("engine", VStr "google"); ("q", query);
     ("num", default (VInt 5) (dict_get "num_results" d)); ("api_key", VStr key)] w
  = (Ret reply, w1) →
  WebSearchTool.status reply = 200 →
  WebSearchTool.json reply = Ret data →
  py_contains "organic_results" data = Ret false →
  execute (VDict d) context w
  = (Ret (VDict [("tool", VStr "web_search"); ("success", VBool false);
                 ("result", VStr "'WebSearchTool' object has no attribute 'format_results'")]),
     w1).
Proof.
  intros -> Hkey Hv Hq Hget Hstatus Hjson Hlisted.
  unfold WebSearchTool.execute. rewrite validate_params_of_dict, Hv. simpl. rewrite Hq. simpl.
  unfold WebSearchTool.search_serapi. destruct key as [|c key]; [done|].
  destruct (dict_get "num_results" d); simpl in Hget |- *;
    rewrite Hget, Hstatus; simpl; rewrite Hjson; simpl; by rewrite Hlisted.
Qed.

End ShippedSearch.

(** ** The engine with the shipped web_search *)

Section ShippedRegistry.
Context `{Runtime}.
Context {world : Type}.
Variable api_key : option string.
Variable http_get :
  string → list (string * val) → world → res WebSearchTool.response * world.

(** The entry [main.py] registers under "web_search". *)
Definition shipped_web_search : Orchestrator.tool (world:=world) :=
  Orchestrator.RegisteredTool WebSearch.spec (WebSearchTool.execute api_key http_get).

(** X17: With the shipped web_search registered under its name, no run starts a
    document extraction: every run has exactly one record for each selected
    invocation, under its name and in the selected order, whatever the
    search service answers and whether or not pdf_parser is registered. *)
Theorem shipped_web_search_never_chains (self : Orchestrator.orchestrator (world:=world))
    (selected_tools : list (string * val)) (query : string) (w : world) :
  dict_get "web_search" (Orchestrator.tools self) = Some shipped_web_search →
  (Orchestrator._execute_tools self selected_tools query w).1.*1 = selected_tools.*1.
Proof.
  intros Hws. unfold Orchestrator._execute_tools.
  rewrite execute_loop_unchained; [done|].
  intros web_search query' params context result w0 w' Hlookup Hexec.
  rewrite Hws in Hlookup. injection Hlookup as <-. simpl in Hexec.
  apply web_search_execute_fails in Hexec as [diagnostic ->].
  unfold Orchestrator.chain_pdf. simpl.
  by destruct (dict_get "pdf_parser" (Orchestrator.tools self)).
Qed.

End ShippedRegistry.

(** ** pdf_parser: the pages that are read, and what execute does around them *)

Lemma filter_strictly_sorted (h : Z → bool) (l : list Z) :
  StronglySorted Z.lt l → StronglySorted Z.lt (List.filter h l).
Proof.
  induction 1 as [|x l Hl IH Hall]; simpl; [constructor|].
  destruct (h x); [|done]. constructor; [done|].
  rewrite Forall_forall in Hall |- *. intros y Hy.
  apply Hall. apply list_elem_of_In in Hy. apply filter_In in Hy as [Hy _].
  by apply list_elem_of_In.
Qed.

Lemma filter_length_le {A} (h : A → bool) (l : list A) :
  (length (List.filter h l) ≤ length l)%nat.
Proof. induction l as [|x l IH]; simpl; [lia|]. destruct (h x); simpl; lia. Qed.

Lemma seqZ_strictly_sorted (k : nat) (m : Z) : StronglySorted Z.lt (seqZ m (Z.of_nat k)).
Proof.
  revert m. induction k as [|k IH]; intros m.
  - rewrite seqZ_nil by lia. constructor.
  - rewrite seqZ_cons by lia. replace (Z.pred (Z.of_nat (S k))) with (Z.of_nat k) by lia.
    constructor; [apply IH|]. apply Forall_seqZ. intros j Hj. lia.
Qed.

Lemma range_strictly_sorted (start stop : Z) : StronglySorted Z.lt (PdfParser.range start stop).
Proof.
  unfold PdfParser.range. destruct (Z.le_gt_cases (stop - start) 0).
  - rewrite seqZ_nil by done. constructor.
  - rewrite <- (Z2Nat.id (stop - start)) by lia. apply seqZ_strictly_sorted.
Qed.

(** The pages that are read are pages of the document, in increasing order
    without repeats, and no more than the limit, provided the request is
    in increasing order and within the limit (as the parser's results
    are). *)
Lemma pages_to_read_sorted_bounded (max_pages : nat) (total_pages : Z) (page_numbers : list Z) :
  StronglySorted Z.lt page_numbers → (length page_numbers ≤ max_pages)%nat →
  StronglySorted Z.lt (PdfParserTool.pages_to_read max_pages total_pages page_numbers) ∧
  Forall (λ p, 1 ≤ p ≤ total_pages)
         (PdfParserTool.pages_to_read max_pages total_pages page_numbers) ∧
  (length (PdfParserTool.pages_to_read max_pages total_pages page_numbers) ≤ max_pages)%nat.
Proof.
  intros Hsorted Hlen. unfold PdfParserTool.pages_to_read. split; [|split].
  - apply filter_strictly_sorted.
    destruct page_numbers; [apply range_strictly_sorted | done].
  - apply Forall_forall. intros p Hp.
    apply list_elem_of_In, filter_In in Hp as [_ Hp].
    apply andb_true_iff in Hp as [?%Z.leb_le ?%Z.leb_le]. lia.
  - etrans; [apply filter_length_le|].
    destruct page_numbers; [|done].
    unfold PdfParser.range. rewrite length_seqZ. lia.
Qed.

Section PdfExecute.
Context `{Runtime}.
Context {world : Type}.
Variable max_pages : nat.
Variable http_get : string → world → res PdfParserTool.response * world.
Variable save_temp : string → world → res string * world.
Variable fitz_open : string → world → res PdfParserTool.document * world.
Variable os_remove : string → world → res unit * world.

Local Abbreviation _extract_pdf_content :=
  (PdfParserTool._extract_pdf_content max_pages fitz_open).
Local Abbreviation run :=
  (PdfParserTool.run max_pages http_get save_temp fitz_open os_remove).
Local Abbreviation execute :=
  (PdfParserTool.execute max_pages http_get save_temp fitz_open os_remove).

Lemma mapM_page_entries (g : Z → res string) (pages : list Z) (entries : list val) :
  PdfParserTool.mapM (λ page_num, text ← g page_num; Ret (PdfParserTool.page_entry page_num text))
    pages = Ret entries →
  ∃ texts : list string,
    length texts = length pages ∧ entries = zip_with PdfParserTool.page_entry pages texts.
Proof.
  revert entries. induction pages as [|p pages IH]; intros entries; simpl.
  - intros [= <-]. by exists [].
  - destruct (g p) as [text|?]; simpl; [|done].
    destruct (PdfParserTool.mapM _ pages) as [rest|?]; simpl; [|done].
    intros [= <-]. destruct (IH rest eq_refl) as (texts & Hlen & ->).
    exists (text :: texts). split; [simpl; lia | done].
Qed.

(** X7: Whatever pages string the parser accepts, the content extracted for it
    lists pages of the document only, in increasing order without repeats,
    and at most [max_pages] of them. *)
Theorem extracted_pages_sorted_bounded (pages_str : option string) (requested : list Z)
    (pdf_path : string) (w w' : world) (content : val) :
  PdfParser._parse_page_range max_pages pages_str = Ret requested →
  _extract_pdf_content pdf_path requested w = (Ret content, w') →
  ∃ (title author : val) (total_pages : Z) (pages : list Z) (texts : list string),
    content = VDict [("metadata",
                      VDict [("title", title); ("author", author);
                             ("total_pages", VInt total_pages)]);
                     ("pages", VList (zip_with PdfParserTool.page_entry pages texts))] ∧
    length texts = length pages ∧
    StronglySorted Z.lt pages ∧
    Forall (λ p, 1 ≤ p ≤ total_pages) pages ∧
    (length pages ≤ max_pages)%nat.
Proof.
  intros Hparse. apply parse_page_range_result_shape in Hparse as [Hsorted Hlen].
  unfold PdfParserTool._extract_pdf_content.
  destruct (fitz_open pdf_path w) as [[doc|?] w1]; [|done].
  destruct (py_get (PdfParserTool.metadata doc) "title" (VStr "")) as [title|?]; simpl; [|done].
  destruct (py_get (PdfParserTool.metadata doc) "author" (VStr "")) as [author|?]; simpl;
    [|done].
  destruct (PdfParserTool.mapM _ _) as [entries|?] eqn:Hmap; simpl; [|done].
  intros [= <- _]. apply mapM_page_entries in Hmap as (texts & Htexts & ->).
  destruct (pages_to_read_sorted_bounded max_pages (PdfParserTool.page_count doc) requested
              Hsorted Hlen) as (? & ? & ?).
  by exists title, author, (PdfParserTool.page_count doc),
    (PdfParserTool.pages_to_read max_pages (PdfParserTool.page_count doc) requested), texts.
Qed.

Lemma pdf_validation_returns (params : list (string * val)) :
  ∃ errors, Base.validate_params (Base.parameters PdfParser.spec) params = Ret errors.
Proof.
  apply validation_returns_on_numbers. intros param_name param_value spec _ Hspec. left.
  simpl in Hspec.
  repeat match type of Hspec with
         | (if ?b then _ else _) = _ => destruct b; [by injection Hspec as <-|]
         end.
  done.
Qed.

(** X8: On a parameter mapping pdf_parser's execute always returns a result:
    whatever goes wrong with the download, the file, the page range or the
    document ends as a failed result, never as a raised exception. *)
Theorem pdf_execute_always_returns (params : list (string * val)) (w : world) :
  ∃ (result : val) (w' : world), execute params w = (Ret result, w').
Proof.
  unfold PdfParserTool.execute.
  destruct (pdf_validation_returns params) as [[|error errors] ->]; [|by eexists _, _].
  destruct (negb _ && negb _); [by eexists _, _|].
  destruct (PdfParserTool.run _ _ _ _ _ _ _ _ w) as [[result|e] w1]; by eexists _, _.
Qed.

(** X9: A request that fails validation, or names neither a url nor a file,
    is answered with a failed result without any download, file access or
    removal: the outside world is left as it was. *)
Theorem pdf_execute_rejects_without_effect (params : list (string * val)) (w : world)
    (errors : list string) :
  Base.validate_params (Base.parameters PdfParser.spec) params = Ret errors →
  errors ≠ [] ∨
  (truthy (default VNone (dict_get "url" params)) = false ∧
   truthy (default VNone (dict_get "file_path" params)) = false) →
  ∃ diagnostic : string,
    execute params w
    = (Ret (VDict [("tool", VStr "pdf_parser"); ("success", VBool false);
                   ("result", VStr diagnostic)]), w).
Proof.
  intros Hv Hrejected. unfold PdfParserTool.execute. rewrite Hv.
  destruct errors as [|error errors]; [|by eexists].
  destruct Hrejected as [?|[-> ->]]; [done|]. by eexists.
Qed.

(** X10: When the page range is refused after the document was downloaded and
    saved, execute stops there with a failed result: the document is not
    opened and the temporary file is not removed. *)
Theorem pdf_execute_keeps_temp_file_on_bad_pages (params : list (string * val)) (w : world)
    (url pages : string) (reply : PdfParserTool.response) (pdf_content temp_path : string)
    (w1 w2 : world) (e : exn) :
  Base.validate_params (Base.parameters PdfParser.spec) params = Ret [] →
  dict_get "url" params = Some (VStr url) → url ≠ "" →
  dict_get "pages" params = Some (VStr pages) →
  PdfParserTool._download_pdf http_get url w = (Ret pdf_content, w1) →
  save_temp pdf_content w1 = (Ret temp_path, w2) →
  PdfParser._parse_page_range max_pages (Some pages) = Raise e →
  execute params w
  = (Ret (VDict [("tool", VStr "pdf_parser"); ("success", VBool false);
                 ("result", VStr (exn_type e +:+ ": " +:+ exn_str e))]), w2).
Proof.
  intros Hv Hurl Hne Hpages Hdown Hsave Hparse.
  unfold PdfParserTool.execute. rewrite Hv, Hurl, Hpages. simpl.
  destruct url as [|c url]; [done|]. simpl.
  unfold PdfParserTool.run. simpl. rewrite Hdown, Hsave.
  unfold PdfParser._parse_page_range in Hparse. simpl in Hparse. by rewrite Hparse.
Qed.

(** X11: A document given by its local path is never removed: with no url in
    the request, the only access to the outside world is the opening of
    that file, if the page range is accepted. *)
Theorem pdf_execute_never_removes_local_file (params : list (string * val)) (w : world)
    (file_path : string) :
  Base.validate_params (Base.parameters PdfParser.spec) params = Ret [] →
  truthy (default VNone (dict_get "url" params)) = false →
  dict_get "file_path" params = Some (VStr file_path) →
  (execute params w).2 = w ∨ (execute params w).2 = (fitz_open file_path w).2.
Proof.
  intros Hv Hurl Hfile. unfold PdfParserTool.execute. rewrite Hv, Hurl, Hfile. simpl.
  destruct (negb _); [by left|].
  unfold PdfParserTool.run. rewrite Hurl. simpl.
  destruct (PdfParserTool.parse_pages max_pages _) as [page_numbers|?]; [|by left].
  right. unfold PdfParserTool._extract_pdf_content.
  destruct (fitz_open file_path w) as [[doc|?] w1]; simpl; [|done].
  by destruct (_ ≫= _).
Qed.

End PdfExecute.

(** ** main.py: conversations across requests *)

Section Conversations.
Context `{Runtime}.
Context {world : Type}.
Variable chat_create : Orchestrator.chat_request → world → res val * world.
Variable select_system_prompt response_system_prompt : string.
Variable tools : list (string * Orchestrator.tool (world:=world)).
Variable uuid4 : world → string * world.
Variable openai_client : res unit.
Implicit Types (known : gmap string (Orchestrator.orchestrator (world:=world))).
Implicit Types (w : world).

Local Abbreviation get_orchestrator := (Main.get_orchestrator tools uuid4 openai_client).
Local Abbreviation chat :=
  (Main.process_query chat_create select_system_prompt response_system_prompt tools uuid4
     openai_client).

(** Every orchestrator is stored under its own conversation id. *)
Definition keyed known : Prop :=
  ∀ id orchestrator, known !! id = Some orchestrator →
                     Orchestrator.conversation_id orchestrator = id.

(** The history stored for an id, empty when there is none. *)
Definition history known (id : string) : list Orchestrator.message :=
  match known !! id with
  | Some orchestrator => Orchestrator.messages orchestrator
  | None => []
  end.

Lemma process_query_keeps_id (self : Orchestrator.orchestrator (world:=world))
    (query : string) w :
  Orchestrator.conversation_id
    (Orchestrator.process_query chat_create select_system_prompt response_system_prompt
       self query w).1.1
  = Orchestrator.conversation_id self ∧
  Orchestrator.qr_conversation_id
    (Orchestrator.process_query chat_create select_system_prompt response_system_prompt
       self query w).1.2
  = Orchestrator.conversation_id self ∧
  Orchestrator.messages
    (Orchestrator.process_query chat_create select_system_prompt response_system_prompt
       self query w).1.1
  = Orchestrator.messages self
    ++ [Orchestrator.Message "user" (VStr query);
        Orchestrator.Message "assistant"
          (Orchestrator.qr_response
             (Orchestrator.process_query chat_create select_system_prompt
                response_system_prompt self query w).1.2)].
Proof.
  unfold Orchestrator.process_query.
  destruct (Orchestrator._select_tools _ _ _ _ _) as [selected_tools w1].
  destruct (Orchestrator._execute_tools _ _ _ _) as [tool_results w2].
  destruct (Orchestrator._create_response _ _ _ _ _ _) as [response w3].
  simpl. by rewrite <- app_assoc.
Qed.

Lemma get_orchestrator_named (id : string) known w :
  id ≠ "" → openai_client = Ret () → keyed known →
  ∃ orchestrator w1,
    get_orchestrator (Some id) known w
    = (Ret orchestrator, <[id := orchestrator]> known, w1) ∧
    Orchestrator.conversation_id orchestrator = id ∧
    Orchestrator.messages orchestrator = history known id.
Proof.
  intros Hid Hclient Hkeyed. unfold Main.get_orchestrator, history.
  destruct id as [|c id]; [done|]. simpl.
  destruct (known !! String c id) as [orchestrator|] eqn:Hknown.
  - exists orchestrator, w. rewrite insert_id by done. split; [done|]. split; [|done].
    by apply Hkeyed.
  - unfold Main.new_orchestrator. rewrite Hclient. destruct (uuid4 w) as [drawn w1]. simpl.
    by eexists _, _.
Qed.



(** X26: The same request leaves every other conversation as it was. *)
Theorem chat_leaves_other_conversations (request : Main.QueryRequest) (id other : string)
    known w :
  Main.conversation_id request = Some id → id ≠ "" →
  openai_client = Ret () → keyed known →
  other ≠ id →
  (chat request known w).1.2 !! other = known !! other.
Proof.
  intros Hreq Hid Hclient Hkeyed Hother. unfold Main.process_query. rewrite Hreq.
  destruct (get_orchestrator_named id known w Hid Hclient Hkeyed)
    as (orchestrator & w1 & -> & Hcid & Hmsgs).
  pose proof (process_query_keeps_id orchestrator (Main.query request) w1) as (Hid' & _).
  destruct (Orchestrator.process_query _ _ _ orchestrator _ w1) as [[orchestrator' result] w2].
  simpl in *. rewrite Hid', Hcid. by rewrite !lookup_insert_ne.
Qed.

(** X27: Every request keeps the conversations keyed by their own id, whether
    or not it names a conversation and whether it is answered or fails. *)
Theorem chat_keeps_conversations_keyed (request : Main.QueryRequest) known w :
  keyed known → keyed (chat request known w).1.2.
Proof.
  intros Hkeyed. unfold Main.process_query, Main.get_orchestrator.
  destruct (_ ≫= _) as [orchestrator|] eqn:Hfound.
  - pose proof (process_query_keeps_id orchestrator (Main.query request) w) as (Hid' & _).
    destruct (Orchestrator.process_query _ _ _ orchestrator _ w) as [[orchestrator' result] w2].
    simpl in *. intros id o. rewrite lookup_insert. case_decide; [|apply Hkeyed].
    by intros [= <-].
  - unfold Main.new_orchestrator. destruct (uuid4 w) as [drawn w1].
    destruct openai_client; simpl; [|done].
    set (orchestrator := match _ with Some _ => _ | None => _ end).
    pose proof (process_query_keeps_id orchestrator (Main.query request) w1) as (Hid' & _).
    destruct (Orchestrator.process_query _ _ _ orchestrator _ w1) as [[orchestrator' result] w2].
    simpl in *. intros id o. rewrite lookup_insert. case_decide; [by intros [= <-]|].
    rewrite lookup_insert. case_decide; [by intros [= <-] | apply Hkeyed].
Qed.


End Conversations.

(** ** code_execute: what execute does for every request *)

Section NeverRuns.
Context `{Runtime}.
Context {host : Type}.
Variable time_time : host → Q.
Variable exec : string → host → CodeExecute.exec_outcome * host.

(** X15: code_execute's execute never runs a script: for every parameter
    mapping the host is left as it was, and whatever is returned is a
    failed result listing validation errors; a mapping that validates gets
    no result at all. *)
Theorem code_execute_never_runs (params : list (string * val)) (w : host) :
  (CodeExecute.execute time_time exec params w).2 = w ∧
  ∀ returned,
    (CodeExecute.execute time_time exec params w).1 = Ret returned →
    ∃ diagnostic : string,
      returned = CodeExecute.Value
                   (VDict [("tool", VStr "code_execute"); ("success", VBool false);
                           ("result", VStr diagnostic)]).
Proof.
  destruct (Base.validate_params (Base.parameters CodeExecute.spec) params)
    as [[|error errors]|?] eqn:Hv.
  - rewrite (execute_validated_raises time_time exec params w Hv). simpl.
    split; [done|]. by intros ?.
  - unfold CodeExecute.execute. rewrite Hv. simpl. split; [done|].
    intros ? [= <-]. by eexists.
  - unfold CodeExecute.execute. rewrite Hv. simpl. split; [done|]. by intros ?.
Qed.

End NeverRuns.

(** ** Closed runs of the further properties *)

Lemma parse_page_range_sorted_bounded_witness :
  StronglySorted Z.lt [1; 2; 3; 7; 8] ∧ (length [1; 2; 3; 7; 8] ≤ 5)%nat.
Proof.
  apply (parse_page_range_sorted_bounded (H:=plain_runtime) 5 (Some "9-7, 2,x, 2, 1-3")
           [1; 2; 3; 7; 8]).
  reflexivity.
Defined.


Lemma validate_params_lists_missing_and_unknown_witness :
  "Missing required parameter: query"
    ∈ ["Missing required parameter: query";
       "Parameter num_results must be at least <repr>";
       "Unknown parameter: limit"] ∧
  "Unknown parameter: limit"
    ∈ ["Missing required parameter: query";
       "Parameter num_results must be at least <repr>";
       "Unknown parameter: limit"].
Proof.
  destruct (validate_params_lists_missing_and_unknown (H:=plain_runtime)
              (Base.parameters WebSearch.spec)
              [("num_results", VInt 0); ("limit", VInt 3)]
              ["Missing required parameter: query";
               "Parameter num_results must be at least <repr>";
               "Unknown parameter: limit"] eq_refl) as [Hmissing Hunknown].
  split.
  - apply (Hmissing "query"
             (Base.ParamSpec (Some "string") "Search query" true None None None None));
      [by left | reflexivity | reflexivity].
  - apply (Hunknown "limit" (VInt 3)); [right; by left | reflexivity].
Defined.

Lemma validate_params_returns_witness :
  ∃ errors,
    Base.validate_params (H:=plain_runtime) (Base.parameters CodeExecute.spec)
      [("code", VInt 7); ("timeout", VInt 100)] = Ret errors.
Proof.
  apply (validate_params_returns (H:=plain_runtime)).
  intros param_name param_value spec Hin Hspec.
  apply elem_of_cons in Hin as [[= -> ->]|Hin].
  { left. injection Hspec as <-. by split. }
  apply elem_of_cons in Hin as [[= -> ->]|Hin]; [|inversion Hin].
  right. by eexists.
Defined.

Lemma execute_code_flags_only_nonpositive_bound_witness :
  CodeExecute._execute_code (H:=plain_runtime) id slow_script
    (VStr "print(sum(range(10**8)))") (VInt 0) 3%Q
  = (VDict [("stdout", VStr ""); ("stderr", VStr "");
            ("execution_time", VFloat (3 - 3)%Q);
            ("error", VStr ("Execution timed out after " +:+ "<repr>" +:+ " seconds"))],
     3%Q).
Proof.
  apply (execute_code_flags_only_nonpositive_bound (H:=plain_runtime) id slow_script
           "print(sum(range(10**8)))" (VInt 0) 0%Q 3%Q);
    [reflexivity | discriminate].
Defined.

Lemma extracted_urls_are_listed_pdf_links_witness :
  ∃ (link : string) (e : list (string * val)),
    VStr "https://example.org/2022.pdf" = VStr link ∧
    ends_with ".pdf" (lower link) = true ∧
    VDict e ∈ listed_entries (search_result two_documents) ∧
    dict_get "link" e = Some (VStr link) ∧
    (∃ success,
        py_get (search_result two_documents) "success" VNone = Ret success ∧
        truthy success = true).
Proof.
  apply (extracted_urls_are_listed_pdf_links (H:=plain_runtime)).
  change (VStr "https://example.org/2022.pdf"
            ∈ [VStr "https://example.org/2023.PDF"; VStr "https://example.org/2022.pdf"]).
  right. left.
Defined.

Lemma extract_pdf_urls_of_well_formed_witness :
  Orchestrator._extract_pdf_urls_from_search (H:=plain_runtime) (search_result two_documents)
  = omap pdf_link two_documents.
Proof.
  apply (extract_pdf_urls_of_well_formed (H:=plain_runtime) _
           [("query", VStr "annual report"); ("results", VList two_documents)]
           (VBool true) two_documents);
    try reflexivity.
  repeat constructor.
  - exists [("title", VStr "Home")]. split; [reflexivity | by left].
  - eexists. split; [reflexivity | right; by eexists].
  - eexists. split; [reflexivity | right; by eexists].
Defined.

(** A registry with the search tool only. *)
Definition search_only : Orchestrator.orchestrator (world:=nat) :=
  Orchestrator.AgentOrchestrator [("web_search", fixed_search two_documents)]
    "conversation-2" [].

Lemma execute_tools_without_pdf_parser_witness :
  (Orchestrator._execute_tools (H:=plain_runtime) search_only
     [("web_search", VDict [("query", VStr "annual report")]); ("fetch", VDict [])]
     "annual report" 0%nat).1.*1
  = [("web_search", VDict [("query", VStr "annual report")]); ("fetch", VDict [])].*1.
Proof.
  apply (execute_tools_without_pdf_parser (H:=plain_runtime) search_only). reflexivity.
Defined.

(** A reply that selects the search tool, without a query. *)
Definition search_runtime : Runtime :=
  canned_runtime (Ret (VDict [("tools", VList [selection_item ("web_search", [])])])).

Lemma process_query_tools_used_have_results_witness :
  dict_mem "web_search" (Orchestrator.tools (registry two_documents)) = true ∧
  is_Some (dict_get "web_search"
             (Orchestrator.qr_tool_results
                (Orchestrator.process_query (H:=search_runtime) answering_chat "" ""
                   (registry two_documents) "annual report" 0%nat).1.2)).
Proof.
  apply (process_query_tools_used_have_results (H:=search_runtime) answering_chat "" ""
           (registry two_documents) "annual report" 0%nat "web_search").
  change ("web_search" ∈ ["web_search"]). left.
Defined.

(** A search service that answers 200 with an empty JSON object, counting
    the request. *)
Definition empty_reply (url : string) (params : list (string * val)) (calls : nat)
  : res WebSearchTool.response * nat :=
  (Ret (WebSearchTool.Response 200 (Ret "{}") (Ret (VDict []))), (calls + 1)%nat).

Lemma web_search_execute_never_succeeds_witness :
  ∃ diagnostic : string,
    VDict [("tool", VStr "web_search"); ("success", VBool false);
           ("result", VStr "'WebSearchTool' object has no attribute 'format_results'")]
    = VDict [("tool", VStr "web_search"); ("success", VBool false);
             ("result", VStr diagnostic)].
Proof.
  apply (web_search_execute_never_succeeds (H:=plain_runtime) (Some "key") empty_reply
           (VDict [("query", VStr "annual report")]) VNone 0%nat 1%nat).
  reflexivity.
Defined.

(** The registry of [main.py] as far as chaining goes: the shipped search
    tool and a document extraction that would be counted. *)
Definition shipped_registry : Orchestrator.orchestrator (world:=nat) :=
  Orchestrator.AgentOrchestrator
    [("web_search", shipped_web_search (H:=plain_runtime) (Some "key") empty_reply);
     ("pdf_parser", counting_pdf_parser)]
    "conversation-3" [].

Lemma shipped_web_search_never_chains_witness :
  (Orchestrator._execute_tools (H:=plain_runtime) shipped_registry
     [("web_search", VDict [("query", VStr "annual report")])] "annual report" 0%nat).1.*1
  = [("web_search", VDict [("query", VStr "annual report")])].*1.
Proof.
  apply (shipped_web_search_never_chains (H:=plain_runtime) (Some "key") empty_reply
           shipped_registry).
  reflexivity.
Defined.

(** The outside world of the document runs: the names of the files on disk. *)
Definition three_pages : PdfParserTool.document :=
  PdfParserTool.Document (VDict [("title", VStr "Report")]) 3
    (λ i, Ret ("page " +:+ (if i =? 0 then "one" else if i =? 1 then "two" else "three"))).

Definition pdf_reply (url : string) (files : list string)
  : res PdfParserTool.response * list string :=
  (Ret (PdfParserTool.Response 200 (Some "application/pdf") (Ret "%PDF-1.7")), files).

Definition save_as_tmp (content : string) (files : list string) : res string * list string :=
  (Ret "/tmp/tmp1.pdf", "/tmp/tmp1.pdf" :: files).

Definition open_three_pages (path : string) (files : list string)
  : res PdfParserTool.document * list string :=
  (Ret three_pages, files).

Definition remove_file (path : string) (files : list string) : res unit * list string :=
  (Ret (), List.filter (λ f, negb (String.eqb f path)) files).

Lemma extracted_pages_sorted_bounded_witness :
  ∃ (title author : val) (total_pages : Z) (pages : list Z) (texts : list string),
    VDict [("metadata",
            VDict [("title", VStr "Report"); ("author", VStr ""); ("total_pages", VInt 3)]);
           ("pages",
            VList [PdfParserTool.page_entry 2 "page two";
                   PdfParserTool.page_entry 3 "page three"])]
    = VDict [("metadata",
              VDict [("title", title); ("author", author);
                     ("total_pages", VInt total_pages)]);
             ("pages", VList (zip_with PdfParserTool.page_entry pages texts))] ∧
    length texts = length pages ∧
    StronglySorted Z.lt pages ∧
    Forall (λ p, 1 ≤ p ≤ total_pages) pages ∧
    (length pages ≤ 50)%nat.
Proof.
  apply (extracted_pages_sorted_bounded (H:=plain_runtime) 50 open_three_pages
           (Some "9-2") [2; 3; 4; 5; 6; 7; 8; 9] "/data/report.pdf" [] []);
    reflexivity.
Defined.

Lemma pdf_execute_rejects_without_effect_witness :
  ∃ diagnostic : string,
    PdfParserTool.execute (H:=plain_runtime) 50 pdf_reply save_as_tmp open_three_pages
      remove_file [("pages", VStr "1-3")] ["/data/report.pdf"]
    = (Ret (VDict [("tool", VStr "pdf_parser"); ("success", VBool false);
                   ("result", VStr diagnostic)]), ["/data/report.pdf"]).
Proof.
  apply (pdf_execute_rejects_without_effect (H:=plain_runtime) 50 pdf_reply save_as_tmp
           open_three_pages remove_file [("pages", VStr "1-3")] ["/data/report.pdf"] []).
  - reflexivity.
  - right. split; reflexivity.
Defined.

(** The download is saved, the page range is refused, and the temporary
    file is still on disk. *)
Lemma pdf_execute_keeps_temp_file_on_bad_pages_witness :
  PdfParserTool.execute (H:=plain_runtime) 50 pdf_reply save_as_tmp open_three_pages
    remove_file [("url", VStr "https://example.org/2023.pdf"); ("pages", VStr "1-2-3")] []
  = (Ret (VDict [("tool", VStr "pdf_parser"); ("success", VBool false);
                 ("result",
                  VStr ("ValueError" +:+ ": " +:+ "too many values to unpack (expected 2)"))]),
     ["/tmp/tmp1.pdf"]).
Proof.
  apply (pdf_execute_keeps_temp_file_on_bad_pages (H:=plain_runtime) 50 pdf_reply save_as_tmp
           open_three_pages remove_file
           [("url", VStr "https://example.org/2023.pdf"); ("pages", VStr "1-2-3")] []
           "https://example.org/2023.pdf" "1-2-3"
           (PdfParserTool.Response 200 (Some "application/pdf") (Ret "%PDF-1.7"))
           "%PDF-1.7" "/tmp/tmp1.pdf" [] ["/tmp/tmp1.pdf"]
           (ValueError "too many values to unpack (expected 2)"));
    (reflexivity || discriminate).
Defined.

Lemma pdf_execute_never_removes_local_file_witness :
  (PdfParserTool.execute (H:=plain_runtime) 50 pdf_reply save_as_tmp open_three_pages
     remove_file [("file_path", VStr "/data/report.pdf")] ["/data/report.pdf"]).2
  = ["/data/report.pdf"]
  ∨ (PdfParserTool.execute (H:=plain_runtime) 50 pdf_reply save_as_tmp open_three_pages
       remove_file [("file_path", VStr "/data/report.pdf")] ["/data/report.pdf"]).2
    = (open_three_pages "/data/report.pdf" ["/data/report.pdf"]).2.
Proof.
  apply (pdf_execute_never_removes_local_file (H:=plain_runtime) 50 pdf_reply save_as_tmp
           open_three_pages remove_file [("file_path", VStr "/data/report.pdf")]
           ["/data/report.pdf"] "/data/report.pdf");
    reflexivity.
Defined.

(** The server of these runs: no tool registered, ids drawn from a
    counter, a configured client. *)
Definition drawn_id (calls : nat) : string * nat := ("generated-id", (calls + 1)%nat).

Definition asks (text : string) (id : string) : Main.QueryRequest :=
  Main.Query text (Some id) None.

(** One conversation is stored, with an earlier exchange. *)
Definition stored : gmap string (Orchestrator.orchestrator (world:=nat)) :=
  {[ "c1" := Orchestrator.AgentOrchestrator [] "c1"
               [Orchestrator.Message "user" (VStr "hello");
                Orchestrator.Message "assistant" (VStr "(the reply text)")] ]}.

Lemma keyed_stored : keyed stored.
Proof.
  intros id orchestrator Hid. unfold stored in Hid.
  by apply lookup_singleton_Some in Hid as [<- <-].
Qed.


Lemma chat_leaves_other_conversations_witness :
  (Main.process_query (H:=unknown_tool_runtime) answering_chat "" "" [] drawn_id (Ret ())
     (asks "2+2?" "c2") stored 0%nat).1.2 !! "c1"
  = stored !! "c1".
Proof.
  apply (chat_leaves_other_conversations (H:=unknown_tool_runtime) answering_chat "" "" []
           drawn_id (Ret ()) (asks "2+2?" "c2") "c2" "c1" stored 0%nat);
    [reflexivity | discriminate | reflexivity | apply keyed_stored | discriminate].
Defined.

Lemma chat_keeps_conversations_keyed_witness :
  keyed
    (Main.process_query (H:=unknown_tool_runtime) answering_chat "" "" [] drawn_id (Ret ())
       (Main.Query "2+2?" None None) stored 0%nat).1.2.
Proof.
  apply (chat_keeps_conversations_keyed (H:=unknown_tool_runtime) answering_chat "" "" []
           drawn_id (Ret ()) (Main.Query "2+2?" None None) stored 0%nat).
  apply keyed_stored.
Defined.

